(** * monggregate: the statement builders, verified against their source

    A shallow embedding of the MongoDB aggregation-pipeline builder
    (pipeline composer, [$bucketAuto] and [$lookup] stages, the [$in] and
    [$last] operators, the Atlas-search stage base) and the properties its
    specification states about them. *)

From stdpp Require Import base option list strings gmap.
From Stdlib Require Import ZArith Permutation.

Set Warnings "-register-all".

Local Open Scope string_scope.
Local Open Scope list_scope.

(** ** Python values and exceptions *)

(** The classes of pydantic models that the source tells apart with
    [isinstance]. *)
Inductive model_class : Type :=
| AccumulatorClass
| ArrayOperatorClass
| OtherModelClass.

(** A Python value as the builders see it.  [VDict] keeps the insertion
    order of the keys, as a Python dict does; [VModel c st] is an instance
    of a model of class [c] whose [statement] property evaluates to [st]. *)
Inductive value : Type :=
| VNone
| VBool (b : bool)
| VInt (z : Z)
| VStr (s : string)
| VList (xs : list value)
| VDict (kvs : list (string * value))
| VModel (c : model_class) (statement : value).

(** The exceptions raised by the modelled code.  A [TypeError] raised inside
    a pydantic validator reaches the caller wrapped in a [ValidationError]. *)
Inductive exn : Type :=
| TypeError (msg : string)
| AttributeError (msg : string)
| ValidationError (errors : list string)
| ExecutionError (msg : string).

Inductive result (A : Type) : Type :=
| Ok (a : A)
| Raise (e : exn).
Arguments Ok {A} a.
Arguments Raise {A} e.

Definition is_ok {A} (r : result A) : bool :=
  match r with Ok _ => true | Raise _ => false end.

(** [d.get(k)] on an ordered dictionary (keyword arguments included). *)
Fixpoint dict_get (k : string) (kvs : list (string * value)) : option value :=
  match kvs with
  | [] => None
  | (k', v) :: rest => if decide (k' = k) then Some v else dict_get k rest
  end.

Definition keys (kvs : list (string * value)) : list string := map fst kvs.

(** The body of a compiled stage or operator: the value under its single
    key. *)
Definition body (key : string) (compiled : value) : option value :=
  match compiled with
  | VDict [(k, b)] => if decide (k = key) then Some b else None
  | _ => None
  end.

(** A field of a compiled body. *)
Definition body_field (key field : string) (compiled : value) : option value :=
  match body key compiled with
  | Some (VDict kvs) => dict_get field kvs
  | _ => None
  end.

(** Modelled from the spec: [resolve] of [monggregate.base] is not among the
    sources.  The Alias Resolver "performs recursive substitution of nested
    model-backed values into raw nested-document form": a model instance is
    replaced by its statement (taken as a terminal), a list by the list of
    its resolved elements in order, a dictionary by the same keys with
    resolved values, and a primitive by itself. *)
Fixpoint resolve (v : value) : value :=
  match v with
  | VModel _ st => st
  | VList xs => VList (map resolve xs)
  | VDict kvs => VDict (map (fun kv => let '(k, x) := kv in (k, resolve x)) kvs)
  | _ => v
  end.


(** ** The validation of fields *)

Module pydantic.

(** The annotations of the fields that the modelled classes declare. *)
Inductive annotation : Type :=
| Str
| Int
| Bool
| Dict
| ListOf (a : annotation).

(** A value that is an instance of the annotation. *)
Fixpoint instance_of (a : annotation) (v : value) : bool :=
  match a, v with
  | Str, VStr _ => true
  | Int, VInt _ => true
  | Bool, VBool _ => true
  | Dict, VDict _ => true
  | ListOf a, VList xs => forallb (instance_of a) xs
  | _, _ => false
  end.

(** A value that no conversion makes an instance of the annotation: [None]
    (the annotation is not optional); a number or a boolean for a
    dictionary or a list; a list or a dictionary for a string, a number or a
    boolean; anything but a list for a list. *)
Definition never (a : annotation) (v : value) : bool :=
  match v, a with
  | VNone, _ => true
  | (VInt _ | VBool _), (Dict | ListOf _) => true
  | (VList _ | VDict _), (Str | Int | Bool) => true
  | (VStr _ | VDict _ | VModel _ _), ListOf _ => true
  | _, _ => false
  end.

Section Validate.

(** The conversions that the validation library applies to a value that is
    not an instance of the annotation (a numeric string for a number, a
    number for a string, ...) are not among the sources: [coerce a v] is the
    converted value, or [None] when the value is refused. *)
Variable coerce : annotation -> value -> option value.

(** The validation of a supplied value: an instance is kept, the elements of
    a list are validated one by one, and any other value is refused or left
    to the conversions. *)
Fixpoint validate (a : annotation) (v : value) : option value :=
  match a, v with
  | ListOf a', VList xs => VList <$> mapM (validate a') xs
  | _, _ =>
      if instance_of a v then Some v
      else if never a v then None
      else coerce a v
  end.

(** A required field: it must be supplied. *)
Definition validate_required (a : annotation) (supplied : option value) : option value :=
  match supplied with
  | None => None
  | Some v => validate a v
  end.

(** A field with a default that is not [None]. *)
Definition validate_default (a : annotation) (d : value) (supplied : option value)
  : option value :=
  match supplied with
  | None => Some d
  | Some v => validate a v
  end.

(** An optional field ([T | None]), [None] by default. *)
Definition validate_optional (a : annotation) (supplied : option value)
  : option (option value) :=
  match supplied with
  | None | Some VNone => Some None
  | Some v => Some <$> validate a v
  end.

End Validate.

(** The name of a field whose validation failed, for the error report. *)
Definition failed {A} (field : string) (validated : option A) : list string :=
  match validated with
  | Some _ => []
  | None => [field]
  end.

Definition as_str (v : option value) : option string :=
  match v with
  | Some (VStr s) => Some s
  | _ => None
  end.

Definition as_int (v : option value) : option Z :=
  match v with
  | Some (VInt n) => Some n
  | _ => None
  end.

Definition as_bool (v : option value) : option bool :=
  match v with
  | Some (VBool b) => Some b
  | _ => None
  end.

Definition as_dict (v : option value) : option (list (string * value)) :=
  match v with
  | Some (VDict d) => Some d
  | _ => None
  end.

(** A supplied value that is an instance of the annotation, if supplied
    (and not [None], for an optional field). *)
Definition instance_if_supplied (a : annotation) (supplied : option value) : bool :=
  match supplied with
  | None => true
  | Some v => instance_of a v
  end.

Definition instance_or_none (a : annotation) (supplied : option value) : bool :=
  match supplied with
  | None | Some VNone => true
  | Some v => instance_of a v
  end.

End pydantic.

(** ** The pipeline composer ([app/pipeline.py]) *)

Module pipeline.

Inductive OnCallEnum : Type := RUN | EXPORT.

(** The executor collaborator: [db[collection].aggregate(pipeline=stages)],
    read into a list.  It is external and may fail. *)
Record Database : Type := { aggregate : string -> list value -> result (list value) }.

Section Composer.

(** [Stage] and its [__call__] live in [app/stages/stage.py], which is not
    among the sources: a stage is any object, and calling it yields its
    statement. *)
Context {Stage : Type}.
Variable stage_call : Stage -> value.

Record Pipeline : Type := mkPipeline {
  _db : option Database;
  on_call : OnCallEnum;
  collection : string;
  stages : list Stage
}.

(** A method of the pipeline object: it returns or raises, and leaves the
    object in a (possibly new) state. *)
Definition method (A : Type) : Type := Pipeline -> result A * Pipeline.

(** The loop of [export]: [stages.append(stage())] for each stage, in the
    order of [self.stages], starting from the empty list. *)
Fixpoint export_loop (todo : list Stage) (stages_ : list value) : list value :=
  match todo with
  | [] => stages_
  | stage :: rest => export_loop rest (stages_ ++ [stage_call stage])
  end.

Definition export : method (list value) :=
  fun self => (Ok (export_loop (stages self) []), self).

Definition to_statements : method (list value) := export.

Definition run : method (list value) :=
  fun self =>
    match export self with
    | (Raise e, self) => (Raise e, self)
    | (Ok stages_, self) =>
        match _db self with
        | Some db => (aggregate db (collection self) stages_, self)
        | None =>
            (Raise (AttributeError "run is not available when no database is provided"),
             self)
        end
    end.

(** [__call__]: [_on_call_map[self.on_call]()]. *)
Definition call : method (list value) :=
  fun self =>
    match on_call self with
    | EXPORT => export self
    | RUN => run self
    end.

(** [self.stages.append(stage); return self]: the body shared by the stage
    wrappers ([match], [sort], [limit], [bucket_auto], [lookup], ...), once
    the stage is built. *)
Definition append_stage (stage : Stage) (self : Pipeline) : Pipeline :=
  mkPipeline (_db self) (on_call self) (collection self) (stages self ++ [stage]).

Definition append_stages (new : list Stage) (self : Pipeline) : Pipeline :=
  fold_left (fun p s => append_stage s p) new self.

(** A stage wrapper called with keyword arguments,
    the body [self.stages.append(X(...)); return self]: the stage is built
    first, [build] being what its constructor yields; when the constructor
    raises, the append is not reached. *)
Definition wrapper (build : result Stage) : method unit :=
  fun self =>
    match build with
    | Ok stage => (Ok tt, append_stage stage self)
    | Raise e => (Raise e, self)
    end.

(** A chain of wrappers, [pipeline.a(...).b(...)...]: each is called on the
    pipeline the one before returned; an exception ends the chain. *)
Fixpoint chain (builds : list (result Stage)) : method unit :=
  fun self =>
    match builds with
    | [] => (Ok tt, self)
    | build :: rest =>
        match wrapper build self with
        | (Ok _, self) => chain rest self
        | (Raise e, self) => (Raise e, self)
        end
    end.

(** The stages of a chain that are built before the first constructor that
    raises, and the exception of that constructor. *)
Fixpoint built_before_failure (builds : list (result Stage)) : list Stage :=
  match builds with
  | Ok stage :: rest => stage :: built_before_failure rest
  | _ => []
  end.

Fixpoint first_failure (builds : list (result Stage)) : result unit :=
  match builds with
  | [] => Ok tt
  | Ok _ :: rest => first_failure rest
  | Raise e :: _ => Raise e
  end.

End Composer.

Arguments Pipeline : clear implicits.
Arguments mkPipeline {Stage} _ _ _ _.

End pipeline.

(** ** The pipeline composer, with stages that are objects *)

Module pipeline_effects.

Section Effects.

(** The stages of a pipeline are objects: [Objects] is the state of all of
    them.  Calling a stage ([Stage.__call__], not among the sources) returns
    a statement and leaves the objects in a state of its choice. *)
Context {Stage Objects : Type}.
Variable stage_call : Stage -> Objects -> value * Objects.

(** The loop of [export], the calls threaded through the objects. *)
Fixpoint export_loop (todo : list Stage) (stages_ : list value) (objects : Objects)
  : list value * Objects :=
  match todo with
  | [] => (stages_, objects)
  | stage :: rest =>
      let '(statement, objects) := stage_call stage objects in
      export_loop rest (stages_ ++ [statement]) objects
  end.

(** [export]: what it returns, and the pipeline and the objects it leaves. *)
Definition export (self : pipeline.Pipeline Stage) (objects : Objects)
  : result (list value) * (pipeline.Pipeline Stage * Objects) :=
  let '(stages_, objects) := export_loop (pipeline.stages self) [] objects in
  (Ok stages_, (self, objects)).


End Effects.

(** A stage whose call counts: its statement is the number of calls made so
    far, which it increments. *)
Definition counting_call (stage : unit) (calls : Z) : value * Z :=
  (VInt calls, (calls + 1)%Z).

End pipeline_effects.

(** ** The [$bucketAuto] stage ([monggregate/stages/bucket_auto.py]) *)

Module bucket_auto.

Inductive GranularityEnum : Type :=
| R5 | R10 | R20 | R40 | R80 | _1_2_5
| E6 | E12 | E24 | E48 | E96 | E192 | POWERSOF2.

(** [.value] of a member of the string enumeration. *)
Definition GranularityEnum_value (g : GranularityEnum) : string :=
  match g with
  | R5 => "R5" | R10 => "R10" | R20 => "R20" | R40 => "R40" | R80 => "R80"
  | _1_2_5 => "1-2-5"
  | E6 => "E6" | E12 => "E12" | E24 => "E24" | E48 => "E48" | E96 => "E96"
  | E192 => "E192" | POWERSOF2 => "POWERSOF2"
  end.

(** The members, in the order of their definition, and the member that a
    string tag names ([GranularityEnum(tag)], how a tag passed as
    [granularity] is read). *)
Definition GranularityEnum_members : list GranularityEnum :=
  [R5; R10; R20; R40; R80; _1_2_5; E6; E12; E24; E48; E96; E192; POWERSOF2].

Definition GranularityEnum_of_value (tag : string) : option GranularityEnum :=
  find (fun g => bool_decide (GranularityEnum_value g = tag)) GranularityEnum_members.

(** The attributes of a built stage ([by] is a keyword here, hence [by_]). *)
Record BucketAuto : Type := mkBucketAuto {
  by_ : value;
  buckets : Z;
  output : option (list (string * value));
  granularity : option GranularityEnum
}.

(** An optional attribute as the Python value it holds. *)
Definition output_value (self : BucketAuto) : value :=
  match output self with
  | Some mapping => VDict mapping
  | None => VNone
  end.

(** [self.granularity.value if self.granularity else None]: every member's
    value is a non-empty string, so a member is always truthy. *)
Definition granularity_value (self : BucketAuto) : value :=
  match granularity self with
  | Some g => VStr (GranularityEnum_value g)
  | None => VNone
  end.

(** The [statement] property. *)
Definition statement (self : BucketAuto) : value :=
  resolve (VDict [
    ("$bucketAuto", VDict [
       ("groupBy", by_ self);
       ("buckets", VInt (buckets self));
       ("output", output_value self);
       ("granularity", granularity_value self)
    ])
  ]).

(** The keyword arguments of a construction, as supplied ([None]: left
    out); [by] is supplied under either of its spellings. *)
Record kwargs : Type := mkKwargs {
  by_arg : option value;
  buckets_arg : option value;
  output_arg : option value;
  granularity_arg : option value
}.

Section Construction.

Variable coerce : pydantic.annotation -> value -> option value.

(** [validate_field_path] of [monggregate.utils] and the check of an output
    against [dict[FieldName, AccumulatorExpression]] are not among the
    sources. *)
Variable validate_field_path : value -> result value.
Variable validate_output : value -> option (list (string * value)).

(** [by] is required; its validator runs on what was supplied. *)
Definition validate_by (supplied : option value) : option value :=
  match supplied with
  | None => None
  | Some v =>
      match validate_field_path v with
      | Ok checked => Some checked
      | Raise _ => None
      end
  end.

(** [buckets] is a required number, declared with [gt=0]. *)
Definition validate_buckets (supplied : option value) : option Z :=
  match pydantic.as_int (pydantic.validate_required coerce pydantic.Int supplied) with
  | Some n => if decide (0 < n)%Z then Some n else None
  | None => None
  end.

Definition validate_output_field (supplied : option value)
  : option (option (list (string * value))) :=
  match supplied with
  | None | Some VNone => Some None
  | Some v => Some <$> validate_output v
  end.

(** [granularity] is a member of the enumeration, given by its tag, or
    [None]. *)
Definition validate_granularity (supplied : option value)
  : option (option GranularityEnum) :=
  match supplied with
  | None | Some VNone => Some None
  | Some (VStr tag) => Some <$> GranularityEnum_of_value tag
  | Some _ => None
  end.

Definition BucketAuto_new (kw : kwargs) : result BucketAuto :=
  let by_checked := validate_by (by_arg kw) in
  let buckets_checked := validate_buckets (buckets_arg kw) in
  let output_checked := validate_output_field (output_arg kw) in
  let granularity_checked := validate_granularity (granularity_arg kw) in
  match by_checked, buckets_checked, output_checked, granularity_checked with
  | Some b, Some n, Some o, Some g => Ok (mkBucketAuto b n o g)
  | _, _, _, _ =>
      Raise (ValidationError
               (pydantic.failed "by" by_checked
                ++ pydantic.failed "buckets" buckets_checked
                ++ pydantic.failed "output" output_checked
                ++ pydantic.failed "granularity" granularity_checked))
  end.

End Construction.

End bucket_auto.

(** ** The [$lookup] stage ([app/stages/lookup.py]) *)

Module lookup.

(** The attributes of a built stage ([let] is a keyword here, hence
    [let_]). *)
Record Lookup : Type := mkLookup {
  right : string;
  left_on : string;
  right_on : string;
  name : string;
  let_ : list (string * value);
  pipeline : list (list (string * value))
}.

(** The keyword arguments of a construction, as supplied, each under the
    spelling the class declares for it ([right] / [from], [left_on] /
    [local_field], [right_on] / [foreign_field], [name] / [as]); [None]:
    left out. *)
Record kwargs : Type := mkKwargs {
  from_ : option value;
  local_field : option value;
  foreign_field : option value;
  as_ : option value;
  let_arg : option value;
  pipeline_arg : option value
}.

(** The required fields that a construction leaves out. *)
Definition required {A} (field : string) (supplied : option A) : list string :=
  match supplied with
  | Some _ => []
  | None => [field]
  end.

Definition missing (kw : kwargs) : list string :=
  required "from" (from_ kw) ++ required "local_field" (local_field kw) ++
  required "foreign_field" (foreign_field kw) ++ required "as" (as_ kw) ++
  required "let" (let_arg kw) ++ required "pipeline" (pipeline_arg kw).

Section Construction.

Variable coerce : pydantic.annotation -> value -> option value.

(** A required [str] field. *)
Definition str_field (supplied : option value) : option string :=
  pydantic.as_str (pydantic.validate_required coerce pydantic.Str supplied).

(** [let : dict]. *)
Definition let_field (supplied : option value) : option (list (string * value)) :=
  pydantic.as_dict (pydantic.validate_required coerce pydantic.Dict supplied).

(** [pipeline : list[dict]]. *)
Definition pipeline_field (supplied : option value)
  : option (list (list (string * value))) :=
  match pydantic.validate_required coerce (pydantic.ListOf pydantic.Dict) supplied with
  | Some (VList stages) => mapM (fun stage => pydantic.as_dict (Some stage)) stages
  | _ => None
  end.

(** Construction: the class declares six required fields with their
    annotations and no validator; once [pipeline] is a list of
    dictionaries, nothing looks into it. *)
Definition Lookup_new (kw : kwargs) : result Lookup :=
  let right_ := str_field (from_ kw) in
  let left_on_ := str_field (local_field kw) in
  let right_on_ := str_field (foreign_field kw) in
  let name_ := str_field (as_ kw) in
  let let_checked := let_field (let_arg kw) in
  let pipeline_checked := pipeline_field (pipeline_arg kw) in
  match right_, left_on_, right_on_, name_, let_checked, pipeline_checked with
  | Some r, Some lo, Some ro, Some n, Some l, Some p => Ok (mkLookup r lo ro n l p)
  | _, _, _, _, _, _ =>
      Raise (ValidationError
               (pydantic.failed "from" right_
                ++ pydantic.failed "local_field" left_on_
                ++ pydantic.failed "foreign_field" right_on_
                ++ pydantic.failed "as" name_
                ++ pydantic.failed "let" let_checked
                ++ pydantic.failed "pipeline" pipeline_checked))
  end.

End Construction.

(** The keyword arguments that supply the six fields with values of their
    declared types. *)
Definition supplied (r lo ro n : string) (l : list (string * value))
    (p : list (list (string * value))) : kwargs :=
  mkKwargs (Some (VStr r)) (Some (VStr lo)) (Some (VStr ro)) (Some (VStr n))
    (Some (VDict l)) (Some (VList (map VDict p))).

(** The stage kinds of a compiled sub-pipeline that the specification
    forbids inside a join: the write-out [$out] and [$merge] stages. *)
Definition forbidden_kind (k : string) : bool :=
  bool_decide (k = "$out") || bool_decide (k = "$merge").

Definition has_forbidden_stage (p : list (list (string * value))) : bool :=
  existsb (fun stage => existsb forbidden_kind (keys stage)) p.

End lookup.

(** ** The count options of a search ([monggregate/search/commons/count.py]) *)

Module count.

(** [Literal["lowerBound", "total"]]. *)
Inductive count_type : Type := lowerBound | total.

Definition count_type_value (t : count_type) : string :=
  match t with
  | lowerBound => "lowerBound"
  | total => "total"
  end.

Record CountOptions : Type := mkCountOptions {
  type : count_type;
  threshold : Z
}.

(** The keyword arguments of a construction; [None]: not supplied. *)
Record kwargs : Type := mkKwargs {
  type_arg : option string;
  threshold_arg : option Z
}.

(** Construction: [type] is one of the two literals, ["lowerBound"] by
    default; [threshold] is [1000] by default. *)
Definition CountOptions_new (kw : kwargs) : result CountOptions :=
  let threshold := default 1000%Z (threshold_arg kw) in
  match type_arg kw with
  | None => Ok (mkCountOptions lowerBound threshold)
  | Some t =>
      if decide (t = "lowerBound") then Ok (mkCountOptions lowerBound threshold)
      else if decide (t = "total") then Ok (mkCountOptions total threshold)
      else Raise (ValidationError ["type"])
  end.

(** The [statement] property: [self.dict(by_alias=True)], the fields in the
    order of their declaration (neither field has an alias). *)
Definition statement (self : CountOptions) : value :=
  VDict [("type", VStr (count_type_value (type self)));
         ("threshold", VInt (threshold self))].

(** The keyword arguments that a dictionary of options spells out
    (the dictionary unpacked into the constructor). *)
Definition kwargs_of (d : value) : option kwargs :=
  match d with
  | VDict kvs =>
      match dict_get "type" kvs, dict_get "threshold" kvs with
      | Some (VStr t), Some (VInt n) => Some (mkKwargs (Some t) (Some n))
      | Some (VStr t), None => Some (mkKwargs (Some t) None)
      | None, Some (VInt n) => Some (mkKwargs None (Some n))
      | None, None => Some (mkKwargs None None)
      | _, _ => None
      end
  | _ => None
  end.

End count.

(** ** The [$last] accumulator ([monggregate/operators/accumulators/last.py]) *)

Module last.

Record Last : Type := mkLast { expression : value }.

(** The [convert_expression] validator: an accumulator instance is replaced
    by its statement. *)
Definition convert_expression (expression : value) : value :=
  match expression with
  | VModel AccumulatorClass statement => statement
  | _ => expression
  end.

Definition Last_new (expression : value) : Last :=
  mkLast (convert_expression expression).

(** The [statement] property, as the source writes it. *)
Definition statement (self : Last) : value :=
  VDict [("$push", expression self)].

(** The function [last]. *)
Definition last (expression : value) : value :=
  statement (Last_new expression).

(** The wire name of the operator that the module documents: "an interface
    to MongoDB $last accumulator operator". *)
Definition wire_name : string := "$last".


End last.

(** ** The [$in] array operator ([monggregate/operators/array/in_.py]) *)

Module in_.

Record IN : Type := mkIN { expression : value; array : value }.

(** A field is populated from the keyword arguments under its alias or under
    its declared name. *)
Definition populate (alias name : string) (kwargs : list (string * value)) : option value :=
  match dict_get alias kwargs with
  | Some v => Some v
  | None => dict_get name kwargs
  end.

(** Construction: [expression] (alias [n]) defaults to [1], [array] (alias
    [input]) is required. *)
Definition IN_new (kwargs : list (string * value)) : result IN :=
  let expression := default (VInt 1) (populate "n" "expression" kwargs) in
  match populate "input" "array" kwargs with
  | Some array => Ok (mkIN expression array)
  | None => Raise (ValidationError ["input"])
  end.

(** The [statement] property. *)
Definition statement (self : IN) : value :=
  VDict [("$in", VList [expression self; array self])].

(** The function [in_]. *)
Definition in_ (array : value) : result value :=
  match IN_new [("expression", array)] with
  | Ok op => Ok (statement op)
  | Raise e => Raise e
  end.

End in_.

(** ** The search stage ([monggregate/stages/search/base.py]) *)

(** Operators, collectors and stages are mutable objects that refer to one
    another: they live in a store, and a reference is a location of it. *)
Definition loc : Type := positive.

Module compound.

(** The clause groups of a boolean-compound operator. *)
Inductive ClauseType : Type := Must | MustNot | Should | Filter.

(** The classes of [AnyOperator] other than [Compound]. *)
Inductive operator_class : Type :=
| Autocomplete | Equals | Exists | MoreLikeThis | Range | Regex | Text | Wildcard.

(** A boolean-compound operator: four ordered lists of references to
    sub-operators and the minimum-should-match count. *)
Record Compound : Type := mkCompound {
  must : list loc;
  must_not : list loc;
  should : list loc;
  filter : list loc;
  minimum_should_match : Z
}.

End compound.

Module search_base.

Import compound.

(** The attributes of a search stage: those of [SearchConfig], then its
    own. *)
Record SearchBase : Type := mkSearchBase {
  index : string;
  count : option value;
  highlight : option value;
  return_stored_source : bool;
  score_details : bool;
  collector : option loc;
  operator : option loc;
  minimum_should_match : Z
}.

Inductive object : Type :=
| OOperator (c : operator_class) (fields : list (string * value))
| OCompound (c : Compound)
| OFacet (fields : list (string * value))
| OSearch (s : SearchBase).

Abbreviation heap := (gmap loc object).

(** A method on the store: it returns or raises, and leaves a new store. *)
Definition method (A : Type) : Type := heap -> result A * heap.

(** Instantiation: the new object gets a location not yet in use. *)
Definition new (o : object) : heap -> loc * heap :=
  fun h => let l := fresh (dom h) in (l, <[l := o]> h).

(** *** [compound.py], not among the sources *)

(** Modelled from the spec: [Compound(minimum_should_match=n)] is "an empty
    boolean-compound operator with a configurable minimum-should-match
    count". *)
Definition Compound_new (must_ must_not_ should_ filter_ : list loc) (n : Z)
  : heap -> loc * heap :=
  new (OCompound (mkCompound must_ must_not_ should_ filter_ n)).

(** Modelled from the spec: a compound holds "named clause groups
    (must/should/mustNot/filter), each holding an ordered list of
    sub-operators", "preserving per-clause insertion order". *)
Definition append_clause (type : ClauseType) (l : loc) (c : Compound) : Compound :=
  match type with
  | Must => mkCompound (must c ++ [l]) (must_not c) (should c) (filter c) (compound.minimum_should_match c)
  | MustNot => mkCompound (must c) (must_not c ++ [l]) (should c) (filter c) (compound.minimum_should_match c)
  | Should => mkCompound (must c) (must_not c) (should c ++ [l]) (filter c) (compound.minimum_should_match c)
  | Filter => mkCompound (must c) (must_not c) (should c) (filter c ++ [l]) (compound.minimum_should_match c)
  end.

(** Modelled from the spec: the helper of the compound behind "add an equals
    clause of type X" (and its siblings): it builds the sub-operator, appends
    it to the clause group [type] of [self] and returns [self].  The search
    stage only calls it on a compound. *)
Definition Compound_add (self : loc) (type : ClauseType) (o : object) : method loc :=
  fun h =>
    match h !! self with
    | Some (OCompound c) =>
        let '(l, h) := new o h in
        (Ok self, <[self := OCompound (append_clause type l c)]> h)
    | _ => (Raise (AttributeError "not a compound operator"), h)
    end.

(** *** Construction of a search stage *)

(** A keyword argument that names an object: left out, passed as [None], or
    passed a reference. *)
Inductive arg (A : Type) : Type :=
| Absent
| PassedNone
| Passed (a : A).
Arguments Absent {A}.
Arguments PassedNone {A}.
Arguments Passed {A} a.

(** [values.get(key)] on such an argument. *)
Definition get {A} (a : arg A) : option A :=
  match a with
  | Passed x => Some x
  | _ => None
  end.

(** [key not in values]. *)
Definition not_in {A} (a : arg A) : bool :=
  match a with
  | Absent => true
  | _ => false
  end.

(** The truth value of a Python value. *)
Definition truthy (v : value) : bool :=
  match v with
  | VNone => false
  | VBool b => b
  | VInt z => negb (z =? 0)%Z
  | VStr s => negb (bool_decide (s = ""))
  | VList [] => false
  | VDict [] => false
  | _ => true
  end.

(** [a or b]. *)
Definition py_or (a b : value) : value := if truthy a then a else b.

(** [values.get(key)] on a plain argument: [None] when it is left out. *)
Definition values_get (supplied : option value) : value := default VNone supplied.

(** The raw input of a construction ([values] of the root validator): the
    arguments of the configuration and the two spellings of the count as
    supplied, the collector and the operator as references. *)
Record kwargs : Type := mkKwargs {
  index_arg : option value;
  count_arg : option value;
  highlight_arg : option value;
  return_stored_source_arg : option value;
  score_details_arg : option value;
  collector_arg : arg loc;
  operator_arg : arg loc;
  minimum_should_match_arg : option value;
  minimumShouldMatch_arg : option value
}.

Definition with_operator (values : kwargs) (op : arg loc) : kwargs :=
  mkKwargs (index_arg values) (count_arg values) (highlight_arg values)
    (return_stored_source_arg values) (score_details_arg values)
    (collector_arg values) op
    (minimum_should_match_arg values) (minimumShouldMatch_arg values).

(** What the root validator hands to [Compound(minimum_should_match=...)]. *)
Definition handed_count (values : kwargs) : value :=
  let minimum_should_match :=
    py_or (values_get (minimum_should_match_arg values))
      (values_get (minimumShouldMatch_arg values)) in
  match minimum_should_match with
  | VNone => VInt 0
  | _ => minimum_should_match
  end.

(** The validated fields of the search configuration and the stage's own
    count. *)
Record config : Type := mkConfig {
  config_index : string;
  config_count : option value;
  config_highlight : option value;
  config_return_stored_source : bool;
  config_score_details : bool;
  config_minimum_should_match : Z
}.

Section Construction.

Variable coerce : pydantic.annotation -> value -> option value.

(** The root validator [init], run before the fields are validated; the
    construction of the default compound validates its count, and [None]
    stands for the error it raises. *)
Definition init (values : kwargs) : heap -> option (kwargs * heap) :=
  fun h =>
    if not_in (collector_arg values) && not_in (operator_arg values) then
      match pydantic.as_int (pydantic.validate coerce pydantic.Int (handed_count values)) with
      | Some minimum_should_match =>
          let '(c, h) := Compound_new [] [] [] [] minimum_should_match h in
          Some (with_operator values (Passed c), h)
      | None => None
      end
    else Some (values, h).

(** The validator of [operator], run always: [value] is the operator passed
    ([None] when there is none), [collector] the validated collector.  An
    instance of a model is truthy. *)
Definition validate_operator (value collector : option loc) : result (option loc) :=
  if bool_decide (collector = None) && bool_decide (value = None) then
    Raise (TypeError "Either collector or operator must be provided")
  else if bool_decide (is_Some collector) && bool_decide (is_Some value) then
    Raise (TypeError "Only one of collector or operator can be provided")
  else Ok value.

(** [collector : Facet | None]: a reference must be to a facet. *)
Definition validate_collector (h : heap) (supplied : arg loc) : option (option loc) :=
  match supplied with
  | Absent | PassedNone => Some None
  | Passed l =>
      match h !! l with
      | Some (OFacet _) => Some (Some l)
      | _ => None
      end
  end.

(** [operator : AnyOperator | None]: what the validator lets through must
    refer to an operator. *)
Definition validate_operator_field (h : heap) (supplied collector : option loc)
  : result (option loc) :=
  match validate_operator supplied collector with
  | Raise e => Raise e
  | Ok None => Ok None
  | Ok (Some l) =>
      match h !! l with
      | Some (OOperator _ _) | Some (OCompound _) => Ok (Some l)
      | _ => Raise (TypeError "operator")
      end
  end.

(** The stage's own count is read under either spelling, [0] by default. *)
Definition own_count (values : kwargs) : option value :=
  match minimumShouldMatch_arg values with
  | Some v => Some v
  | None => minimum_should_match_arg values
  end.

Definition validate_config (values : kwargs) : option config :=
  match pydantic.as_str
          (pydantic.validate_default coerce pydantic.Str (VStr "default") (index_arg values)),
        pydantic.validate_optional coerce pydantic.Dict (count_arg values),
        pydantic.validate_optional coerce pydantic.Dict (highlight_arg values),
        pydantic.as_bool
          (pydantic.validate_default coerce pydantic.Bool (VBool false)
             (return_stored_source_arg values)),
        pydantic.as_bool
          (pydantic.validate_default coerce pydantic.Bool (VBool false)
             (score_details_arg values)),
        pydantic.as_int
          (pydantic.validate_default coerce pydantic.Int (VInt 0) (own_count values))
  with
  | Some i, Some c, Some hl, Some rss, Some sd, Some n => Some (mkConfig i c hl rss sd n)
  | _, _, _, _, _, _ => None
  end.

(** The report of the fields that failed, in the order of the fields. *)
Definition field_errors (h : heap) (values : kwargs) : list string :=
  pydantic.failed "index"
    (pydantic.validate_default coerce pydantic.Str (VStr "default") (index_arg values))
  ++ pydantic.failed "count"
       (pydantic.validate_optional coerce pydantic.Dict (count_arg values))
  ++ pydantic.failed "highlight"
       (pydantic.validate_optional coerce pydantic.Dict (highlight_arg values))
  ++ pydantic.failed "return_stored_source"
       (pydantic.validate_default coerce pydantic.Bool (VBool false)
          (return_stored_source_arg values))
  ++ pydantic.failed "score_details"
       (pydantic.validate_default coerce pydantic.Bool (VBool false)
          (score_details_arg values))
  ++ pydantic.failed "collector" (validate_collector h (collector_arg values))
  ++ match validate_operator_field h (get (operator_arg values))
             (mjoin (validate_collector h (collector_arg values))) with
     | Ok _ => []
     | Raise (TypeError msg) => [msg]
     | Raise _ => ["operator"]
     end
  ++ pydantic.failed "minimum_should_match"
       (pydantic.validate_default coerce pydantic.Int (VInt 0) (own_count values)).

(** Construction: the root validator, then the fields with their
    validators ([values.get("collector")] is the validated collector, [None]
    when its validation failed).  The errors of the validators are reported
    together as a [ValidationError]. *)
Definition SearchBase_new (values : kwargs) : method loc :=
  fun h =>
    match init values h with
    | None => (Raise (ValidationError ["__root__"]), h)
    | Some (values, h) =>
        let collector := validate_collector h (collector_arg values) in
        match validate_config values, collector,
              validate_operator_field h (get (operator_arg values)) (mjoin collector)
        with
        | Some cfg, Some col, Ok op =>
            let '(l, h) :=
              new (OSearch (mkSearchBase
                     (config_index cfg) (config_count cfg) (config_highlight cfg)
                     (config_return_stored_source cfg) (config_score_details cfg)
                     col op (config_minimum_should_match cfg))) h in
            (Ok l, h)
        | _, _, _ => (Raise (ValidationError (field_errors h values)), h)
        end
    end.

End Construction.

(** A construction whose configuration and counts, where supplied, are
    values of the declared types. *)
Definition well_typed (values : kwargs) : bool :=
  pydantic.instance_if_supplied pydantic.Str (index_arg values)
  && pydantic.instance_or_none pydantic.Dict (count_arg values)
  && pydantic.instance_or_none pydantic.Dict (highlight_arg values)
  && pydantic.instance_if_supplied pydantic.Bool (return_stored_source_arg values)
  && pydantic.instance_if_supplied pydantic.Bool (score_details_arg values)
  && pydantic.instance_if_supplied pydantic.Int (minimum_should_match_arg values)
  && pydantic.instance_if_supplied pydantic.Int (minimumShouldMatch_arg values).

(** The count of the default compound of a well-typed construction. *)
Definition default_count (values : kwargs) : Z :=
  match handed_count values with
  | VInt n => n
  | _ => 0%Z
  end.

(** *** The helpers of a compound search *)

Section Helpers.

(** The rendering [{self.operator}] of the operator inside an error message:
    the models' [__str__] is not among the sources. *)
Variable format_operator : heap -> option loc -> string.

(** [isinstance(self.operator, Compound)]: the compound referred to, if the
    operator is one. *)
Definition as_Compound (h : heap) (o : option loc) : option loc :=
  match o with
  | Some l =>
      match h !! l with
      | Some (OCompound _) => Some l
      | _ => None
      end
  | None => None
  end.

(** [if isinstance(self.operator, Compound): <delegate to it> else: raise
    TypeError(f"Cannot call <helper> on {self.operator}")], the test every
    helper starts with. *)
Definition guarded {A} (helper : string) (self : loc) (delegate : loc -> method A)
  : method A :=
  fun h =>
    match h !! self with
    | Some (OSearch s) =>
        match as_Compound h (operator s) with
        | Some op => delegate op h
        | None =>
            (Raise (TypeError ("Cannot call " +:+ helper +:+ " on "
                               +:+ format_operator h (operator s))), h)
        end
    | _ => (Raise (AttributeError "not a search stage"), h)
    end.

(** [...; return self]: the result of the delegate is dropped. *)
Definition returning (self : loc) (m : method loc) : method loc :=
  fun h =>
    match m h with
    | (Ok _, h) => (Ok self, h)
    | (Raise e, h) => (Raise e, h)
    end.

Definition autocomplete (self : loc) (type : ClauseType)
    (query path token_order fuzzy score : value) : method loc :=
  returning self (guarded "autocomplete" self (fun op =>
    Compound_add op type (OOperator Autocomplete
      [("query", query); ("path", path); ("token_order", token_order);
       ("fuzzy", fuzzy); ("score", score)]))).

Definition equals (self : loc) (type : ClauseType) (path value_ score : value)
  : method loc :=
  returning self (guarded "equals" self (fun op =>
    Compound_add op type (OOperator Equals
      [("path", path); ("value", value_); ("score", score)]))).

Definition exists_ (self : loc) (type : ClauseType) (path : value) : method loc :=
  returning self (guarded "exists" self (fun op =>
    Compound_add op type (OOperator Exists [("path", path)]))).

Definition range (self : loc) (type : ClauseType) (path gt lt gte lte score : value)
  : method loc :=
  returning self (guarded "range" self (fun op =>
    Compound_add op type (OOperator Range
      [("path", path); ("gt", gt); ("lt", lt); ("gte", gte); ("lte", lte);
       ("score", score)]))).

Definition regex (self : loc) (type : ClauseType)
    (query path allow_analyzed_field score : value) : method loc :=
  returning self (guarded "regex" self (fun op =>
    Compound_add op type (OOperator Regex
      [("query", query); ("path", path);
       ("allow_analyzed_field", allow_analyzed_field); ("score", score)]))).

Definition text (self : loc) (type : ClauseType)
    (query path fuzzy score synonyms : value) : method loc :=
  returning self (guarded "text" self (fun op =>
    Compound_add op type (OOperator Text
      [("query", query); ("path", path); ("fuzzy", fuzzy); ("score", score);
       ("synonyms", synonyms)]))).

Definition wildcard (self : loc) (type : ClauseType)
    (query path allow_analyzed_field score : value) : method loc :=
  returning self (guarded "wildcard" self (fun op =>
    Compound_add op type (OOperator Wildcard
      [("query", query); ("path", path);
       ("allow_analyzed_field", allow_analyzed_field); ("score", score)]))).

(** The nesting helper of the compound operator ([compound.py], not among
    the sources): what it returns and leaves is its own business. *)
Variable nesting_helper :
  loc -> ClauseType -> list loc -> list loc -> list loc -> list loc -> Z -> method loc.

(** The nesting helper of the stage returns [_coumpound], what the compound's
    own helper returned. *)
Definition compound (self : loc) (type : ClauseType)
    (must_ must_not_ should_ filter_ : list loc) (minimum_should_match_ : Z)
  : method loc :=
  guarded "compound" self (fun op =>
    nesting_helper op type must_ must_not_ should_ filter_ minimum_should_match_).

End Helpers.


(** Two small stores for examples: a stage (at [1]) whose operator (at [2])
    is a text operator, and one whose operator is an empty compound. *)
Definition example_stage : SearchBase :=
  mkSearchBase "default" None None false false None (Some 2%positive) 0.

Definition text_store : heap :=
  <[1%positive := OSearch example_stage]>
    (<[2%positive := OOperator Text [("query", VStr "surf"); ("path", VStr "title")]]> ∅).

Definition compound_store : heap :=
  <[1%positive := OSearch example_stage]>
    (<[2%positive := OCompound (mkCompound [] [] [] [] 0)]> ∅).


(** A store with one facet (at [1]). *)
Definition facet_store : heap :=
  <[1%positive := OFacet [("path", VStr "genres")]]> ∅.

(** *** The constructors by operator name *)

(** [OperatorLiteral], the operator names that [from_operator] declares to
    accept. *)
Definition OperatorLiteral : list string :=
  ["autocomplete"; "compound"; "equals"; "exists"; "facet"; "more_like_this";
   "range"; "regex"; "text"; "wildcard"].

(** The class methods that build a stage from one operator. *)
Inductive constructor : Type :=
| init_autocomplete | init_compound | init_equals | init_exists | init_facet
| init_more_like_this | init_range | init_regex | init_text | init_wildcard.

Definition _constructors_map : list (string * constructor) :=
  [("autocomplete", init_autocomplete);
   ("compound", init_compound);
   ("equals", init_equals);
   ("exists", init_exists);
   ("facet", init_facet);
   ("more_like_this", init_more_like_this);
   ("range", init_range);
   ("regex", init_regex);
   ("text", init_text);
   ("wildcard", init_wildcard)].

(** [__get_constructors_map__]: [_constructors_map[operator_name]]; [None]
    stands for the [KeyError] of a name that is not a key. *)
Definition get_constructors_map (operator_name : string) : option constructor :=
  snd <$> find (fun entry => bool_decide (fst entry = operator_name)) _constructors_map.

(** [d[k] = v] on an ordered dictionary: a key already there keeps its
    place, a new one goes to the end. *)
Fixpoint dict_set (k : string) (v : value) (kvs : list (string * value))
  : list (string * value) :=
  match kvs with
  | [] => [(k, v)]
  | (k', v') :: rest =>
      if decide (k' = k) then (k, v) :: rest else (k', v') :: dict_set k v rest
  end.

(** [d.update(new)]. *)
Definition dict_update (new kvs : list (string * value)) : list (string * value) :=
  fold_left (fun d kv => dict_set (fst kv) (snd kv) d) new kvs.

(** [d.pop(k, None)], the popped value dropped. *)
Fixpoint dict_pop (k : string) (kvs : list (string * value)) : list (string * value) :=
  match kvs with
  | [] => []
  | (k', v') :: rest =>
      if decide (k' = k) then rest else (k', v') :: dict_pop k rest
  end.

(** [from_operator], up to the call of the constructor it selects: the
    keyword arguments are updated with the four named parameters, then the
    constructor is looked up by name and is to be called with them. *)
Definition from_operator (operator_name : string) (path query fuzzy score : value)
    (kwargs : list (string * value)) : option (constructor * list (string * value)) :=
  let kwargs :=
    dict_update [("path", path); ("query", query); ("fuzzy", fuzzy); ("score", score)]
      kwargs in
  match get_constructors_map operator_name with
  | Some init_ => Some (init_, kwargs)
  | None => None
  end.

(** [__reduce_kwargs]: the arguments of the search configuration are popped
    from the keyword arguments. *)
Definition reduce_kwargs (kwargs : list (string * value)) : list (string * value) :=
  dict_pop "score_details"
    (dict_pop "return_stored_source"
       (dict_pop "highlight" (dict_pop "count" (dict_pop "index" kwargs)))).

Definition config_keys : list string :=
  ["index"; "count"; "highlight"; "return_stored_source"; "score_details"].

End search_base.

(** ** The [lookup] wrapper of the pipeline ([app/pipeline.py]) *)

Module pipeline_lookup.

(** [self.stages.append(Lookup(...)); return self], for a pipeline
    whose stages include the lookup stages through [of_lookup]. *)
Definition lookup {Stage : Type} (coerce : pydantic.annotation -> value -> option value)
    (of_lookup : lookup.Lookup -> Stage)
    (kwargs : lookup.kwargs) : pipeline.method (Stage := Stage) unit :=
  pipeline.wrapper
    match lookup.Lookup_new coerce kwargs with
    | Ok stage => Ok (of_lookup stage)
    | Raise e => Raise e
    end.

End pipeline_lookup.

(** * Properties *)

(** ** Raw documents and [resolve] *)




(** ** The validation of fields *)

Section ValidateFacts.

Variable coerce : pydantic.annotation -> value -> option value.

(** An instance of the annotation is kept as it is: no conversion is
    consulted. *)
Lemma validate_instance (a : pydantic.annotation) (v : value) :
  pydantic.instance_of a v = true -> pydantic.validate coerce a v = Some v.
Proof.
  revert v. induction a as [ | | | |a IH]; intros v Hv;
    try (by destruct v; simpl in *; try done; rewrite ?Hv).
  destruct v as [ | | | |xs| | ]; simpl in Hv; try done.
  simpl. induction xs as [|x xs IHxs]; [done|].
  simpl in Hv. apply andb_true_iff in Hv as [Hx Hxs].
  cbn [mapM]. rewrite (IH x Hx). cbn.
  specialize (IHxs Hxs). destruct (mapM (pydantic.validate coerce a) xs) as [ys|]; [|done].
  cbn in *. congruence.
Qed.

Lemma validate_default_instance (a : pydantic.annotation) (d : value)
    (supplied : option value) :
  pydantic.instance_if_supplied a supplied = true ->
  pydantic.validate_default coerce a d supplied = Some (default d supplied).
Proof. destruct supplied as [v|]; [apply validate_instance|done]. Qed.

Lemma validate_optional_instance (a : pydantic.annotation) (supplied : option value) :
  pydantic.instance_or_none a supplied = true ->
  is_Some (pydantic.validate_optional coerce a supplied).
Proof.
  destruct supplied as [v|]; [|by eexists]. intros Hv.
  destruct v; try (by eexists);
    unfold pydantic.validate_optional; rewrite (validate_instance _ _ Hv); by eexists.
Qed.

End ValidateFacts.

(** ** The pipeline composer *)

Section ComposerFacts.

Context {Stage : Type}.
Variable stage_call : Stage -> value.

Abbreviation Pipeline := (pipeline.Pipeline Stage).

(** The loop appends the statements of the stages still to do, in order. *)
Lemma export_loop_app (todo : list Stage) (acc : list value) :
  pipeline.export_loop stage_call todo acc = acc ++ map stage_call todo.
Proof.
  revert acc. induction todo as [|s todo IH]; intros acc; simpl.
  - by rewrite app_nil_r.
  - by rewrite IH, <- app_assoc.
Qed.

Lemma export_map (self : Pipeline) :
  pipeline.export stage_call self
  = (Ok (map stage_call (pipeline.stages self)), self).
Proof. unfold pipeline.export. by rewrite export_loop_app. Qed.

Lemma stages_append_stages (new : list Stage) (self : Pipeline) :
  pipeline.stages (pipeline.append_stages new self) = pipeline.stages self ++ new.
Proof.
  unfold pipeline.append_stages. revert self.
  induction new as [|s new IH]; intros self; simpl.
  - by rewrite app_nil_r.
  - rewrite IH. simpl. by rewrite <- app_assoc.
Qed.

(** C1. Exporting a pipeline returns one document per stage, the i-th being
    the statement of the i-th stage of the pipeline, and the stages of a
    pipeline are those appended to it, in the order of the appends (nothing is
    reordered, merged or dropped); calling the pipeline in export mode is
    [export]. *)
Theorem export_one_statement_per_stage (self : Pipeline) :
  exists out : list value,
    pipeline.export stage_call self = (Ok out, self)
    /\ length out = length (pipeline.stages self)
    /\ (forall i : nat, out !! i = stage_call <$> pipeline.stages self !! i)
    /\ (forall new : list Stage,
          pipeline.export stage_call (pipeline.append_stages new self)
          = (Ok (out ++ map stage_call new), pipeline.append_stages new self))
    /\ pipeline.call stage_call
         (pipeline.mkPipeline (pipeline._db self) pipeline.EXPORT
            (pipeline.collection self) (pipeline.stages self))
       = pipeline.export stage_call
           (pipeline.mkPipeline (pipeline._db self) pipeline.EXPORT
              (pipeline.collection self) (pipeline.stages self)).
Proof.
  exists (map stage_call (pipeline.stages self)).
  split; [apply export_map|].
  split; [apply length_map|].
  split; [intros i; apply list_lookup_fmap|].
  split; [|reflexivity].
  intros new. rewrite export_map, stages_append_stages. by rewrite map_app.
Qed.

(** C8. In run mode without a database the call raises, whatever the stages
    (it does not return the exported list); with a database it hands the
    exported list and the pipeline's collection to the executor and returns
    what the executor returns. *)
Theorem run_needs_a_database (coll : string) (ss : list Stage) :
  let unconfigured := pipeline.mkPipeline None pipeline.RUN coll ss in
  pipeline.call stage_call unconfigured
  = (Raise (AttributeError "run is not available when no database is provided"),
     unconfigured)
  /\ (forall mode : pipeline.OnCallEnum,
        pipeline.run stage_call (pipeline.mkPipeline None mode coll ss)
        = (Raise (AttributeError "run is not available when no database is provided"),
           pipeline.mkPipeline None mode coll ss))
  /\ (forall db : pipeline.Database,
        let configured := pipeline.mkPipeline (Some db) pipeline.RUN coll ss in
        pipeline.call stage_call configured
        = (pipeline.aggregate db coll (map stage_call ss), configured)).
Proof.
  cbv zeta. split; [|split].
  - unfold pipeline.call; simpl. unfold pipeline.run. by rewrite export_map.
  - intros mode. unfold pipeline.run. by rewrite export_map.
  - intros db. unfold pipeline.call; simpl. unfold pipeline.run.
    by rewrite export_map.
Qed.

End ComposerFacts.

(** ** The pipeline composer, with stages that are objects *)

Section EffectsFacts.

Context {Stage Objects : Type}.
Variable stage_call : Stage -> Objects -> value * Objects.


(** When the calls of the stages only read the objects, the loop returns
    the statements read in the objects it started with, and these objects. *)
Lemma export_loop_reading (todo : list Stage) (acc : list value) (objects : Objects) :
  (forall stage o, snd (stage_call stage o) = o) ->
  pipeline_effects.export_loop stage_call todo acc objects
  = (acc ++ map (fun stage => fst (stage_call stage objects)) todo, objects).
Proof.
  intros Hread. revert acc. induction todo as [|stage todo IH]; intros acc.
  - cbn. by rewrite app_nil_r.
  - cbn [pipeline_effects.export_loop map].
    pose proof (Hread stage objects) as Hstage.
    destruct (stage_call stage objects) as [statement objects'] eqn:Hcall.
    cbn [fst snd] in *. subst objects'. by rewrite IH, <- app_assoc.
Qed.


(** With stage calls that are functions of the stage alone, this [export]
    is the [export] of the composer above. *)
Lemma export_of_pure_stages (statement : Stage -> value)
    (self : pipeline.Pipeline Stage) (objects : Objects) :
  (forall stage o, stage_call stage o = (statement stage, o)) ->
  pipeline_effects.export stage_call self objects
  = (fst (pipeline.export statement self), (self, objects)).
Proof.
  intros Hpure. unfold pipeline_effects.export.
  rewrite export_loop_reading by (intros stage o; by rewrite Hpure).
  rewrite export_map. cbn [fst app]. do 2 f_equal.
  apply map_ext. intros stage. by rewrite Hpure.
Qed.

End EffectsFacts.


(** The hypothesis on the stages is needed: with a stage whose call counts,
    the second export differs from the first. *)
Lemma export_differs_when_a_stage_writes :
  let self := pipeline.mkPipeline None pipeline.EXPORT "sales" [tt] in
  let first := pipeline_effects.export pipeline_effects.counting_call self 0%Z in
  let second :=
    pipeline_effects.export pipeline_effects.counting_call (fst (snd first)) (snd (snd first)) in
  fst first = Ok [VInt 0] /\ fst second = Ok [VInt 1] /\ fst (snd second) = self.
Proof. repeat split. Qed.

(** ** The [$bucketAuto] stage *)

(** The statement of any built stage, computed. *)
Lemma bucket_auto_statement_shape (self : bucket_auto.BucketAuto) :
  bucket_auto.statement self
  = VDict [
      ("$bucketAuto", VDict [
         ("groupBy", resolve (bucket_auto.by_ self));
         ("buckets", VInt (bucket_auto.buckets self));
         ("output", resolve (bucket_auto.output_value self));
         ("granularity", bucket_auto.granularity_value self)
      ])
    ].
Proof.
  unfold bucket_auto.statement. simpl. repeat f_equal.
  unfold bucket_auto.granularity_value. by destruct (bucket_auto.granularity self).
Qed.



(** A granularity, when set, is compiled to its string tag. *)
Lemma bucket_auto_granularity_tag (b : value) (n : Z) (g : bucket_auto.GranularityEnum) :
  body_field "$bucketAuto" "granularity"
    (bucket_auto.statement (bucket_auto.mkBucketAuto b n None (Some g)))
  = Some (VStr (bucket_auto.GranularityEnum_value g)).
Proof. by rewrite bucket_auto_statement_shape. Qed.

(** ** The [$lookup] stage *)

Section LookupFacts.

Variable coerce : pydantic.annotation -> value -> option value.

Lemma mapM_as_dict (p : list (list (string * value))) :
  mapM (fun stage => pydantic.as_dict (Some stage)) (map VDict p) = Some p.
Proof.
  induction p as [|stage p IH]; [done|].
  cbn [map]. change (mapM ?f (?x :: ?xs)) with (y ← f x; k ← mapM f xs; mret (y :: k)).
  cbv beta. change (pydantic.as_dict (Some (VDict stage))) with (Some stage).
  cbn [mbind option_bind]. by rewrite IH.
Qed.

(** Six fields supplied with values of their declared types build the stage
    that holds them, whatever the sub-pipeline is made of. *)
Lemma Lookup_new_supplied (r lo ro n : string) (l : list (string * value))
    (p : list (list (string * value))) :
  lookup.Lookup_new coerce (lookup.supplied r lo ro n l p)
  = Ok (lookup.mkLookup r lo ro n l p).
Proof.
  unfold lookup.Lookup_new, lookup.supplied. cbn [lookup.from_ lookup.local_field
    lookup.foreign_field lookup.as_ lookup.let_arg lookup.pipeline_arg].
  assert (lookup.pipeline_field coerce (Some (VList (map VDict p))) = Some p) as ->.
  { unfold lookup.pipeline_field, pydantic.validate_required.
    rewrite validate_instance; [apply mapM_as_dict|].
    cbn [pydantic.instance_of]. induction p as [|stage p IH]; [done|]. done. }
  reflexivity.
Qed.

(** C3, at the code. A sub-pipeline that holds a [$out] stage is accepted:
    the stage is built, and holds the sub-pipeline as given. *)
Theorem lookup_accepts_out_stage :
  let sub := [[("$match", VDict [("x", VInt 1)])]; [("$out", VStr "archive")]] in
  lookup.has_forbidden_stage sub = true
  /\ lookup.Lookup_new coerce (lookup.supplied "X" "a" "b" "out" [] sub)
     = Ok (lookup.mkLookup "X" "a" "b" "out" [] sub).
Proof. split; [reflexivity|apply Lookup_new_supplied]. Qed.

End LookupFacts.

(** ** The [$last] accumulator *)

(** C5, at the code. The statement of the last-accumulator is keyed by
    [$push], which is not the wire name of [$last]. *)
Theorem last_statement_keyed_by_push (e : value) :
  last.last e = VDict [("$push", last.convert_expression e)]
  /\ last.statement (last.Last_new (VStr "$price")) = VDict [("$push", VStr "$price")]
  /\ body last.wire_name (last.statement (last.Last_new (VStr "$price"))) = None
  /\ "$push" <> last.wire_name.
Proof. repeat split; done. Qed.

(** ** The [$in] array operator *)

(** Keyword arguments have distinct names, so the order in which they are
    written does not change what a name is bound to. *)
Lemma dict_get_Permutation (k : string) (kvs kvs' : list (string * value)) :
  NoDup (keys kvs) -> Permutation kvs kvs' -> dict_get k kvs = dict_get k kvs'.
Proof.
  intros Hnd Hperm. induction Hperm as [|[k1 v1] l l' Hp IH|[k1 v1] [k2 v2] l|l l' l'' Hp1 IH1 Hp2 IH2].
  - done.
  - simpl in *. apply NoDup_cons in Hnd as [_ Hnd]. case_decide; [done|by apply IH].
  - simpl in *. apply NoDup_cons in Hnd as [Hin _].
    repeat case_decide; try done. subst. destruct Hin. by left.
  - rewrite IH1 by done. apply IH2.
    unfold keys in *. by rewrite <- Hp1.
Qed.

Lemma populate_Permutation (alias name : string) (kvs kvs' : list (string * value)) :
  NoDup (keys kvs) -> Permutation kvs kvs' ->
  in_.populate alias name kvs = in_.populate alias name kvs'.
Proof.
  intros Hnd Hp. unfold in_.populate.
  by rewrite !(dict_get_Permutation _ kvs kvs').
Qed.

(** C6. The [$in] operator compiles to the two-element array of its declared
    parameters, the expression first and the array second; what is built
    from keyword arguments does not depend on the order in which the caller
    wrote them. *)
Theorem in_statement_declared_order (expression array : value) :
  in_.statement (in_.mkIN expression array)
  = VDict [("$in", VList [expression; array])]
  /\ in_.IN_new [("expression", expression); ("array", array)]
     = Ok (in_.mkIN expression array)
  /\ in_.IN_new [("array", array); ("expression", expression)]
     = Ok (in_.mkIN expression array)
  /\ (forall kwargs kwargs' : list (string * value),
        NoDup (keys kwargs) -> Permutation kwargs kwargs' ->
        in_.IN_new kwargs' = in_.IN_new kwargs)
  /\ (forall (kwargs : list (string * value)) (op : in_.IN),
        in_.IN_new kwargs = Ok op ->
        in_.statement op = VDict [("$in", VList [in_.expression op; in_.array op])]).
Proof.
  repeat split; try reflexivity.
  intros kwargs kwargs' Hnd Hp. unfold in_.IN_new.
  by rewrite !(populate_Permutation _ _ kwargs kwargs').
Qed.

(** Keyword arguments under their aliases, the array written first. *)
Lemma in_statement_declared_order_witness :
  in_.IN_new [("n", VStr "$qty"); ("input", VList [VInt 1; VInt 2])]
  = in_.IN_new [("input", VList [VInt 1; VInt 2]); ("n", VStr "$qty")].
Proof.
  apply (proj1 (proj2 (proj2 (proj2
           (in_statement_declared_order (VStr "$qty") (VList [VInt 1; VInt 2])))))).
  - unfold keys; simpl. compute_done.
  - apply perm_swap.
Defined.

(** The function [in_] passes its argument as [expression] and no array:
    the construction it starts always fails. *)
Lemma in_function_always_raises (array : value) :
  in_.in_ array = Raise (ValidationError ["input"]).
Proof. reflexivity. Qed.

(** ** The search stage *)

Section SearchFacts.

Abbreviation heap := (gmap loc search_base.object).

Implicit Types (h : heap) (self op : loc) (s : search_base.SearchBase)
  (c : compound.Compound) (type : compound.ClauseType).

(** A new object is stored where nothing was. *)
Lemma lookup_fresh_None h : h !! fresh (dom h) = None.
Proof. apply not_elem_of_dom, is_fresh. Qed.

(** *** Construction *)

Section ConstructionFacts.

Variable coerce : pydantic.annotation -> value -> option value.

Lemma validate_operator_alone (o : loc) :
  search_base.validate_operator (Some o) None = Ok (Some o).
Proof. reflexivity. Qed.

(** The configuration of a well-typed construction passes validation. *)
Lemma validate_config_well_typed (values : search_base.kwargs) :
  search_base.well_typed values = true ->
  is_Some (search_base.validate_config coerce values).
Proof.
  unfold search_base.well_typed. rewrite !andb_true_iff.
  intros [[[[[[Hi Hc] Hh] Hr] Hs] Hm] Hm'].
  unfold search_base.validate_config.
  rewrite (validate_default_instance coerce _ _ _ Hi).
  rewrite (validate_default_instance coerce _ _ _ Hr).
  rewrite (validate_default_instance coerce _ _ _ Hs).
  destruct (validate_optional_instance coerce _ _ Hc) as [c ->].
  destruct (validate_optional_instance coerce _ _ Hh) as [hl ->].
  assert (pydantic.instance_if_supplied pydantic.Int (search_base.own_count values) = true)
    as Hown.
  { unfold search_base.own_count.
    by destruct (search_base.minimumShouldMatch_arg values). }
  rewrite (validate_default_instance coerce _ _ _ Hown).
  destruct (search_base.index_arg values) as [[]|]; try done.
  all: destruct (search_base.return_stored_source_arg values) as [[]|]; try done.
  all: destruct (search_base.score_details_arg values) as [[]|]; try done.
  all: destruct (search_base.own_count values) as [[]|]; try done.
  all: by eexists.
Qed.

Lemma validate_config_with_operator (values : search_base.kwargs)
    (op : search_base.arg loc) :
  search_base.validate_config coerce (search_base.with_operator values op)
  = search_base.validate_config coerce values.
Proof. by destruct values. Qed.

(** The root validator of a well-typed construction hands the default
    compound a number. *)
Lemma handed_count_well_typed (values : search_base.kwargs) :
  search_base.well_typed values = true ->
  search_base.handed_count values = VInt (search_base.default_count values).
Proof.
  unfold search_base.well_typed. rewrite !andb_true_iff.
  intros [[_ Hm] Hm']. unfold search_base.default_count, search_base.handed_count.
  destruct (search_base.minimum_should_match_arg values) as [[]|]; try done;
    destruct (search_base.minimumShouldMatch_arg values) as [[]|]; try done;
    cbn; unfold search_base.py_or; cbn; by repeat case_match.
Qed.

(** What construction leaves when neither a collector nor an operator is
    named and the rest is well typed: a new empty compound, then the stage
    that refers to it. *)
Lemma SearchBase_new_neither (values : search_base.kwargs) h :
  search_base.collector_arg values = search_base.Absent ->
  search_base.operator_arg values = search_base.Absent ->
  search_base.well_typed values = true ->
  let op := fresh (dom h) in
  let h1 := <[op := search_base.OCompound
                      (compound.mkCompound [] [] [] [] (search_base.default_count values))]> h in
  exists s,
    search_base.SearchBase_new coerce values h
    = (Ok (fresh (dom h1)), <[fresh (dom h1) := search_base.OSearch s]> h1)
    /\ search_base.collector s = None
    /\ search_base.operator s = Some op.
Proof.
  intros Hcol Hop Htyped. cbv zeta.
  destruct (validate_config_well_typed values Htyped) as [cfg Hcfg].
  unfold search_base.SearchBase_new, search_base.init.
  rewrite Hcol, Hop. cbn [search_base.not_in andb].
  rewrite (handed_count_well_typed values Htyped).
  cbn [pydantic.validate pydantic.instance_of pydantic.as_int].
  unfold search_base.Compound_new, search_base.new.
  rewrite validate_config_with_operator, Hcfg.
  assert (search_base.collector_arg
            (search_base.with_operator values (search_base.Passed (fresh (dom h))))
          = search_base.Absent) as -> by (by destruct values).
  assert (search_base.operator_arg
            (search_base.with_operator values (search_base.Passed (fresh (dom h))))
          = search_base.Passed (fresh (dom h))) as -> by (by destruct values).
  cbn [search_base.validate_collector mjoin option_join search_base.get].
  unfold search_base.validate_operator_field.
  rewrite validate_operator_alone, lookup_insert_eq.
  eexists. split; [reflexivity|]. done.
Qed.

(** C2. A construction that passes both a collector and an operator fails,
    and the store is as it was; when the collector is a facet, the errors
    reported hold the validator's "Only one of collector or operator can be
    provided".  A construction that names neither, and is otherwise well
    typed, builds a stage whose operator is a new compound with four empty
    clause groups and the count passed under either spelling, [0] when none
    is passed.  (Passing [None] for the collector and leaving the operator
    out fails too.) *)
Theorem search_stage_collector_or_operator (values : search_base.kwargs) h :
  (forall col o : loc,
     search_base.collector_arg values = search_base.Passed col ->
     search_base.operator_arg values = search_base.Passed o ->
     is_ok (fst (search_base.SearchBase_new coerce values h)) = false
     /\ snd (search_base.SearchBase_new coerce values h) = h
     /\ forall fields, h !! col = Some (search_base.OFacet fields) ->
          exists errors,
            fst (search_base.SearchBase_new coerce values h)
            = Raise (ValidationError errors)
            /\ "Only one of collector or operator can be provided" ∈ errors)
  /\ (search_base.collector_arg values = search_base.Absent ->
      search_base.operator_arg values = search_base.Absent ->
      search_base.well_typed values = true ->
      let op := fresh (dom h) in
      let empty := search_base.OCompound
                     (compound.mkCompound [] [] [] [] (search_base.default_count values)) in
      let h1 := <[op := empty]> h in
      let stage := fresh (dom h1) in
      exists s,
        search_base.SearchBase_new coerce values h
        = (Ok stage, <[stage := search_base.OSearch s]> h1)
        /\ search_base.collector s = None
        /\ search_base.operator s = Some op
        /\ <[stage := search_base.OSearch s]> h1 !! op = Some empty
        /\ h !! op = None)
  /\ (search_base.minimum_should_match_arg values = None ->
      search_base.minimumShouldMatch_arg values = None ->
      search_base.default_count values = 0%Z)
  /\ (forall n : Z,
        search_base.minimum_should_match_arg values = Some (VInt n) ->
        search_base.minimumShouldMatch_arg values = None ->
        search_base.default_count values = n)
  /\ (forall n : Z,
        search_base.minimum_should_match_arg values = None ->
        search_base.minimumShouldMatch_arg values = Some (VInt n) ->
        search_base.default_count values = n)
  /\ (search_base.collector_arg values = search_base.PassedNone ->
      search_base.operator_arg values = search_base.Absent ->
      is_ok (fst (search_base.SearchBase_new coerce values h)) = false
      /\ snd (search_base.SearchBase_new coerce values h) = h).
Proof.
  split; [|split; [|split; [|split; [|split]]]].
  - intros col o Hcol Hop.
    unfold search_base.SearchBase_new, search_base.init.
    rewrite Hcol, Hop. cbn [search_base.not_in andb search_base.get].
    unfold search_base.field_errors. rewrite Hcol, Hop.
    cbn [search_base.validate_collector search_base.get].
    destruct (h !! col) as [[cls ofields|cmp|ffields|st]|] eqn:Hlook;
      cbn [mjoin option_join search_base.validate_operator_field
           search_base.validate_operator];
      destruct (search_base.validate_config coerce values);
      (split; [done|]); (split; [done|]); intros fields0 Hfacet; try done.
    all: eexists; (split; [reflexivity|]).
    all: rewrite !elem_of_app; do 6 right; left; cbn; apply list_elem_of_here.
  - intros Hcol Hop Htyped. cbv zeta.
    destruct (SearchBase_new_neither values h Hcol Hop Htyped) as (s & Hnew & Hc & Ho).
    cbv zeta in Hnew. exists s. split; [exact Hnew|]. split; [done|]. split; [done|].
    split; [|apply lookup_fresh_None].
    rewrite lookup_insert_ne; [apply lookup_insert_eq|].
    intros Heq. pose proof (lookup_fresh_None
      (<[fresh (dom h) := search_base.OCompound
           (compound.mkCompound [] [] [] [] (search_base.default_count values))]> h)) as Hnone.
    rewrite Heq, lookup_insert_eq in Hnone. discriminate.
  - intros Hm Hm'. unfold search_base.default_count, search_base.handed_count.
    by rewrite Hm, Hm'.
  - intros n Hm Hm'. unfold search_base.default_count, search_base.handed_count.
    rewrite Hm, Hm'. cbn. unfold search_base.py_or. cbn.
    destruct (Z.eqb_spec n 0) as [->|Hn]; cbn; [done|].
    by destruct n.
  - intros n Hm Hm'. unfold search_base.default_count, search_base.handed_count.
    by rewrite Hm, Hm'.
  - intros Hcol Hop.
    unfold search_base.SearchBase_new, search_base.init.
    rewrite Hcol, Hop. cbn [search_base.not_in andb]. rewrite Hcol, Hop.
    cbn [search_base.get search_base.validate_collector mjoin option_join].
    by destruct (search_base.validate_config coerce values).
Qed.

End ConstructionFacts.

(** *** The helpers *)

Variable format_operator : heap -> option loc -> string.

Lemma as_Compound_Some h (o : option loc) op :
  search_base.as_Compound h o = Some op ->
  o = Some op /\ exists c, h !! op = Some (search_base.OCompound c).
Proof.
  unfold search_base.as_Compound. destruct o as [l|]; [|done].
  destruct (h !! l) as [[| c | |]|] eqn:Hl; try done.
  intros [= ->]. eauto.
Qed.

(** On a compound, the compound's helper stores the new clause and appends
    it to the group. *)
Lemma Compound_add_compound op type (o : search_base.object) h c :
  h !! op = Some (search_base.OCompound c) ->
  search_base.Compound_add op type o h
  = (Ok op,
     <[op := search_base.OCompound (search_base.append_clause type (fresh (dom h)) c)]>
       (<[fresh (dom h) := o]> h)).
Proof. intros Hop. unfold search_base.Compound_add. by rewrite Hop. Qed.

(** A helper called on a stage whose operator is no compound raises, and
    changes nothing. *)
Lemma guarded_other {A} (helper : string) self s (delegate : loc -> search_base.method A) h :
  h !! self = Some (search_base.OSearch s) ->
  search_base.as_Compound h (search_base.operator s) = None ->
  search_base.guarded format_operator helper self delegate h
  = (Raise (TypeError ("Cannot call " +:+ helper +:+ " on "
                       +:+ format_operator h (search_base.operator s))), h).
Proof. intros Hself Hop. unfold search_base.guarded. by rewrite Hself, Hop. Qed.

(** A clause helper called on a stage whose operator is a compound returns
    the stage. *)
Lemma clause_on_compound (helper : string) self s type (o : search_base.object) h op c :
  h !! self = Some (search_base.OSearch s) ->
  search_base.as_Compound h (search_base.operator s) = Some op ->
  h !! op = Some (search_base.OCompound c) ->
  search_base.returning self
    (search_base.guarded format_operator helper self
       (fun op => search_base.Compound_add op type o)) h
  = (Ok self,
     <[op := search_base.OCompound (search_base.append_clause type (fresh (dom h)) c)]>
       (<[fresh (dom h) := o]> h)).
Proof.
  intros Hself Hop Hc. unfold search_base.returning, search_base.guarded.
  by rewrite Hself, Hop, (Compound_add_compound _ _ _ _ _ Hc).
Qed.

(** The stage is still what it was after a clause is stored and appended. *)
Lemma stage_kept self s op c (l : loc) (o : search_base.object) h :
  h !! self = Some (search_base.OSearch s) ->
  h !! op = Some (search_base.OCompound c) ->
  h !! l = None ->
  forall c', <[op := search_base.OCompound c']> (<[l := o]> h) !! self
             = Some (search_base.OSearch s).
Proof.
  intros Hself Hop Hl c'.
  rewrite lookup_insert_ne by (intros ->; congruence).
  rewrite lookup_insert_ne by (intros ->; congruence). done.
Qed.

(** C7. On a stage whose operator is not a compound, [equals] raises a type
    error whose message ends with the rendering of that operator, and stores
    nothing; on a stage whose operator is a compound it stores the equals
    clause, appends it to the clause group asked for, and returns the
    stage. *)
Theorem equals_only_on_a_compound self s type (path value_ score : value) h :
  h !! self = Some (search_base.OSearch s) ->
  match search_base.as_Compound h (search_base.operator s) with
  | None =>
      search_base.equals format_operator self type path value_ score h
      = (Raise (TypeError ("Cannot call equals on "
                           +:+ format_operator h (search_base.operator s))), h)
  | Some op =>
      exists c,
        h !! op = Some (search_base.OCompound c)
        /\ search_base.equals format_operator self type path value_ score h
           = (Ok self,
              <[op := search_base.OCompound
                        (search_base.append_clause type (fresh (dom h)) c)]>
                (<[fresh (dom h) := search_base.OOperator compound.Equals
                     [("path", path); ("value", value_); ("score", score)]]> h))
  end.
Proof.
  intros Hself.
  destruct (search_base.as_Compound h (search_base.operator s)) as [op|] eqn:Hop.
  - destruct (as_Compound_Some _ _ _ Hop) as [_ [c Hc]].
    exists c. split; [done|]. unfold search_base.equals.
    by apply clause_on_compound with (s := s).
  - unfold search_base.equals, search_base.returning.
    by rewrite (guarded_other _ _ _ _ _ Hself Hop).
Qed.


End SearchFacts.

(** A construction that passes a count of two and nothing else builds a
    stage on a new empty compound with that count. *)
Lemma search_stage_collector_or_operator_witness :
  let values := search_base.mkKwargs None None None None None search_base.Absent
                  search_base.Absent (Some (VInt 2)) None in
  let h := search_base.facet_store in
  let op := fresh (dom h) in
  let empty := search_base.OCompound (compound.mkCompound [] [] [] [] 2) in
  let h1 := <[op := empty]> h in
  let stage := fresh (dom h1) in
  exists s,
    search_base.SearchBase_new (fun _ _ => None) values h
    = (Ok stage, <[stage := search_base.OSearch s]> h1)
    /\ search_base.collector s = None
    /\ search_base.operator s = Some op
    /\ <[stage := search_base.OSearch s]> h1 !! op = Some empty
    /\ h !! op = None.
Proof.
  exact (proj1 (proj2 (search_stage_collector_or_operator (fun _ _ => None)
                         (search_base.mkKwargs None None None None None search_base.Absent
                            search_base.Absent (Some (VInt 2)) None)
                         search_base.facet_store))
           eq_refl eq_refl eq_refl).
Defined.

(** On the store with a text operator, [equals] raises and names it; on the
    store with a compound, it returns the stage. *)
Lemma equals_only_on_a_compound_witness :
  let fmt := fun (_ : gmap loc search_base.object) (_ : option loc) => "text" in
  search_base.equals fmt 1%positive compound.Must (VStr "ok") (VBool true) VNone
    search_base.text_store
  = (Raise (TypeError "Cannot call equals on text"), search_base.text_store)
  /\ fst (search_base.equals fmt 1%positive compound.Must (VStr "ok") (VBool true) VNone
            search_base.compound_store)
     = Ok 1%positive.
Proof.
  split.
  - exact (equals_only_on_a_compound (fun _ _ => "text") 1%positive
             search_base.example_stage compound.Must (VStr "ok") (VBool true) VNone
             search_base.text_store eq_refl).
  - destruct (equals_only_on_a_compound (fun _ _ => "text") 1%positive
                search_base.example_stage compound.Must (VStr "ok") (VBool true) VNone
                search_base.compound_store eq_refl) as [c [_ ->]].
    reflexivity.
Defined.


(** * Further properties of the code *)

(** ** Chains of stage wrappers *)

Section WrapperFacts.

Context {Stage : Type}.
Variable stage_call : Stage -> value.

Abbreviation Pipeline' := (pipeline.Pipeline Stage).

Lemma append_stages_cons (stage : Stage) (new : list Stage) (self : Pipeline') :
  pipeline.append_stages (stage :: new) self
  = pipeline.append_stages new (pipeline.append_stage stage self).
Proof. reflexivity. Qed.

(** X1. A chain of stage wrappers appends the stages whose construction
    succeeds, in order, up to the first construction that raises; the chain
    ends there with that exception, the stages appended before it stay in
    the pipeline and no later wrapper is run. *)
Theorem chain_runs_to_first_failure (builds : list (result Stage)) (self : Pipeline') :
  pipeline.chain builds self
  = (pipeline.first_failure builds,
     pipeline.append_stages (pipeline.built_before_failure builds) self).
Proof.
  revert self. induction builds as [|[stage|e] builds IH]; intros self.
  - reflexivity.
  - cbn [pipeline.chain pipeline.wrapper pipeline.first_failure
         pipeline.built_before_failure].
    by rewrite IH, append_stages_cons.
  - reflexivity.
Qed.

Lemma append_stages_frame (new : list Stage) (self : Pipeline') :
  pipeline._db (pipeline.append_stages new self) = pipeline._db self
  /\ pipeline.on_call (pipeline.append_stages new self) = pipeline.on_call self
  /\ pipeline.collection (pipeline.append_stages new self) = pipeline.collection self.
Proof.
  revert self. induction new as [|s new IH]; intros self; [done|].
  rewrite append_stages_cons. destruct (IH (pipeline.append_stage s self)) as (-> & -> & ->).
  done.
Qed.

(** X2. Whatever a chain of wrappers does, it changes neither the database,
    nor the call mode, nor the collection of the pipeline; calling the
    pipeline afterwards hands the executor the statements of the old stages
    followed by those of the stages the chain built, for the same
    collection. *)
Theorem call_after_chain (db : pipeline.Database) (coll : string)
    (old : list Stage) (builds : list (result Stage)) :
  let after := snd (pipeline.chain builds
                      (pipeline.mkPipeline (Some db) pipeline.RUN coll old)) in
  pipeline._db after = Some db
  /\ pipeline.on_call after = pipeline.RUN
  /\ pipeline.collection after = coll
  /\ fst (pipeline.call stage_call after)
     = pipeline.aggregate db coll
         (map stage_call old ++ map stage_call (pipeline.built_before_failure builds)).
Proof.
  cbv zeta. rewrite chain_runs_to_first_failure. cbn [snd].
  set (p0 := pipeline.mkPipeline (Some db) pipeline.RUN coll old).
  destruct (append_stages_frame (pipeline.built_before_failure builds) p0)
    as (Hdb & Hmode & Hcoll).
  repeat split; try done.
  unfold pipeline.call. rewrite Hmode. cbn [pipeline.on_call p0].
  unfold pipeline.run. rewrite export_map, Hdb, Hcoll. cbn [fst].
  by rewrite stages_append_stages, map_app.
Qed.

(** X3. The [lookup] wrapper appends the stage, after the stages already
    there, when the six fields are supplied with values of their declared
    types, whatever the sub-pipeline is made of; it raises when a field is
    left out or when the pipeline is a number; and whenever it raises, the
    pipeline is as it was. *)
Theorem lookup_wrapper_appends_or_raises
    (coerce : pydantic.annotation -> value -> option value)
    (of_lookup : lookup.Lookup -> Stage) (kw : lookup.kwargs) (self : Pipeline') :
  let outcome := pipeline_lookup.lookup coerce of_lookup kw self in
  (forall (r lo ro n : string) (l : list (string * value))
          (p : list (list (string * value))),
     kw = lookup.supplied r lo ro n l p ->
     outcome
     = (Ok tt, pipeline.append_stage (of_lookup (lookup.mkLookup r lo ro n l p)) self))
  /\ (is_ok (fst outcome) = false -> snd outcome = self)
  /\ (lookup.missing kw <> [] -> is_ok (fst outcome) = false)
  /\ (forall z : Z, lookup.pipeline_arg kw = Some (VInt z) -> is_ok (fst outcome) = false).
Proof.
  cbv zeta. unfold pipeline_lookup.lookup. split; [|split; [|split]].
  - intros r lo ro n l p ->. by rewrite Lookup_new_supplied.
  - by destruct (lookup.Lookup_new coerce kw).
  - intros Hmissing.
    assert (is_ok (lookup.Lookup_new coerce kw) = false) as Hfail.
    { unfold lookup.Lookup_new.
      destruct kw as [[f|] [lf|] [ff|] [a|] [l|] [p|]]; try (by destruct Hmissing);
        cbn [lookup.from_ lookup.local_field lookup.foreign_field lookup.as_
             lookup.let_arg lookup.pipeline_arg];
        by repeat case_match. }
    by destruct (lookup.Lookup_new coerce kw).
  - intros z Hp.
    assert (is_ok (lookup.Lookup_new coerce kw) = false) as Hfail.
    { unfold lookup.Lookup_new. rewrite Hp.
      assert (lookup.pipeline_field coerce (Some (VInt z)) = None) as -> by done.
      by repeat case_match. }
    by destruct (lookup.Lookup_new coerce kw).
Qed.

End WrapperFacts.

(** A lookup whose sub-pipeline is a [$out] stage, appended to an empty
    pipeline of lookup stages. *)
Lemma lookup_wrapper_appends_or_raises_witness :
  let sub := [[("$out", VStr "archive")]] in
  let self := pipeline.mkPipeline None pipeline.EXPORT "orders" [] in
  pipeline_lookup.lookup (fun _ _ => None) (fun stage => stage)
    (lookup.supplied "items" "item" "sku" "stock" [] sub) self
  = (Ok tt, pipeline.append_stage (lookup.mkLookup "items" "item" "sku" "stock" [] sub) self).
Proof.
  exact (proj1 (lookup_wrapper_appends_or_raises (fun _ _ => None) (fun stage => stage)
                  (lookup.supplied "items" "item" "sku" "stock" []
                     [[("$out", VStr "archive")]])
                  (pipeline.mkPipeline None pipeline.EXPORT "orders" []))
           "items" "item" "sku" "stock" [] [[("$out", VStr "archive")]] eq_refl).
Defined.

(** ** The [$bucketAuto] stage, further *)

(** X4. A string names a granularity exactly when it is that member's tag:
    reading a tag back gives the member it came from, and two members never
    share a tag. *)
Theorem granularity_tag_round_trip :
  (forall (tag : string) (g : bucket_auto.GranularityEnum),
     bucket_auto.GranularityEnum_of_value tag = Some g
     <-> bucket_auto.GranularityEnum_value g = tag)
  /\ (forall g g' : bucket_auto.GranularityEnum,
        bucket_auto.GranularityEnum_value g = bucket_auto.GranularityEnum_value g'
        <-> g = g').
Proof.
  assert (forall g, bucket_auto.GranularityEnum_of_value
                      (bucket_auto.GranularityEnum_value g) = Some g) as Hback.
  { by intros []. }
  assert (forall tag g, bucket_auto.GranularityEnum_of_value tag = Some g ->
                        bucket_auto.GranularityEnum_value g = tag) as Hforth.
  { intros tag g Hfind. apply find_some in Hfind as [_ Htag].
    by apply bool_decide_eq_true in Htag. }
  split.
  - intros tag g. split; [apply Hforth | intros <-; apply Hback].
  - intros g g'. split; [|by intros ->].
    intros Heq. pose proof (Hback g) as Hg. rewrite Heq, Hback in Hg. by injection Hg.
Qed.

(** X5. A stage that is built has a positive number of buckets, and its
    statement carries that number under [buckets]; a construction whose
    [buckets] is left out, or is a number that is not positive, or whose
    [granularity] is a string that is no tag of the enumeration, fails. *)
Theorem bucket_auto_built_with_positive_buckets
    (coerce : pydantic.annotation -> value -> option value)
    (validate_field_path : value -> result value)
    (validate_output : value -> option (list (string * value)))
    (kw : bucket_auto.kwargs) :
  let built := bucket_auto.BucketAuto_new coerce validate_field_path validate_output kw in
  (forall self : bucket_auto.BucketAuto,
     built = Ok self ->
     (0 < bucket_auto.buckets self)%Z
     /\ body_field "$bucketAuto" "buckets" (bucket_auto.statement self)
        = Some (VInt (bucket_auto.buckets self)))
  /\ (bucket_auto.buckets_arg kw = None -> is_ok built = false)
  /\ (forall n : Z, (n <= 0)%Z ->
        bucket_auto.buckets_arg kw = Some (VInt n) -> is_ok built = false)
  /\ (forall tag : string,
        bucket_auto.GranularityEnum_of_value tag = None ->
        bucket_auto.granularity_arg kw = Some (VStr tag) -> is_ok built = false).
Proof.
  cbv zeta. unfold bucket_auto.BucketAuto_new. split; [|split; [|split]].
  - intros self.
    destruct (bucket_auto.validate_buckets coerce (bucket_auto.buckets_arg kw))
      as [n|] eqn:Hn; [|by repeat case_match].
    assert (0 < n)%Z as Hpos.
    { unfold bucket_auto.validate_buckets in Hn.
      destruct (pydantic.as_int _) as [n'|]; [|done].
      case_decide; [|done]. congruence. }
    repeat case_match; try done. intros [= <-].
    split; [done|]. by rewrite bucket_auto_statement_shape.
  - intros ->. cbn. by repeat case_match.
  - intros n Hn ->.
    assert (bucket_auto.validate_buckets coerce (Some (VInt n)) = None) as ->.
    { unfold bucket_auto.validate_buckets. cbn. case_decide; [lia|done]. }
    by repeat case_match.
  - intros tag Htag ->. cbn [bucket_auto.validate_granularity]. rewrite Htag. cbn.
    by repeat case_match.
Qed.

(** Three buckets over the prices, with a validator of [by] that accepts
    every grouping expression as it is. *)
Lemma bucket_auto_built_with_positive_buckets_witness :
  (0 < 3)%Z
  /\ body_field "$bucketAuto" "buckets"
       (bucket_auto.statement (bucket_auto.mkBucketAuto (VStr "$price") 3 None None))
     = Some (VInt 3).
Proof.
  exact (proj1 (bucket_auto_built_with_positive_buckets
                  (fun _ _ => None) (fun v => Ok v) (fun _ => None)
                  (bucket_auto.mkKwargs (Some (VStr "$price")) (Some (VInt 3)) None None))
           (bucket_auto.mkBucketAuto (VStr "$price") 3 None None) eq_refl).
Defined.

(** X6. Whatever is set and whatever is left out, the statement is a
    document under the single key [$bucketAuto] with the four fields
    [groupBy], [buckets], [output], [granularity], in this order: an unset
    output or granularity is written as null, not omitted. *)
Theorem bucket_auto_statement_always_four_fields (self : bucket_auto.BucketAuto) :
  exists fields : list (string * value),
    bucket_auto.statement self = VDict [("$bucketAuto", VDict fields)]
    /\ keys fields = ["groupBy"; "buckets"; "output"; "granularity"]
    /\ (bucket_auto.output self = None -> dict_get "output" fields = Some VNone)
    /\ (bucket_auto.granularity self = None -> dict_get "granularity" fields = Some VNone).
Proof.
  eexists. rewrite bucket_auto_statement_shape. split; [reflexivity|].
  split; [reflexivity|]. split.
  - intros Hout. unfold bucket_auto.output_value. by rewrite Hout.
  - intros Hg. unfold bucket_auto.granularity_value. by rewrite Hg.
Qed.

(** ** The [$last] accumulator, further *)


(** ** The [$in] operator, further *)

(** X9. Built without an expression (under neither spelling), the operator
    takes [1] in its place, and the statement tests whether [1] is in the
    array. *)
Theorem in_expression_defaults_to_one (kwargs : list (string * value)) (op : in_.IN) :
  dict_get "n" kwargs = None ->
  dict_get "expression" kwargs = None ->
  in_.IN_new kwargs = Ok op ->
  in_.statement op = VDict [("$in", VList [VInt 1; in_.array op])]
  /\ in_.populate "input" "array" kwargs = Some (in_.array op).
Proof.
  intros Hn He.
  assert (in_.populate "n" "expression" kwargs = None) as Hexpr.
  { unfold in_.populate. by rewrite Hn, He. }
  unfold in_.IN_new. rewrite Hexpr. cbn [default].
  destruct (in_.populate "input" "array" kwargs) as [a|]; [|done].
  by intros [= <-].
Qed.

Lemma in_expression_defaults_to_one_witness :
  in_.statement (in_.mkIN (VInt 1) (VStr "$tags"))
  = VDict [("$in", VList [VInt 1; VStr "$tags"])]
  /\ in_.populate "input" "array" [("input", VStr "$tags")] = Some (VStr "$tags").
Proof.
  exact (in_expression_defaults_to_one [("input", VStr "$tags")]
           (in_.mkIN (VInt 1) (VStr "$tags")) eq_refl eq_refl eq_refl).
Defined.

(** ** The count options *)

(** X10. The statement of count options, unpacked into the constructor,
    builds the same options again. *)
Theorem count_options_round_trip (self : count.CountOptions) :
  exists kw : count.kwargs,
    count.kwargs_of (count.statement self) = Some kw
    /\ count.CountOptions_new kw = Ok self.
Proof.
  destruct self as [[] n]; eexists; (split; [reflexivity|]); reflexivity.
Qed.

(** ** The search stage, further *)

(** *** Dictionaries of keyword arguments *)

Lemma dict_get_set_eq (k : string) (v : value) (kvs : list (string * value)) :
  dict_get k (search_base.dict_set k v kvs) = Some v.
Proof.
  induction kvs as [|[k' v'] kvs IH]; simpl.
  - by rewrite decide_True.
  - case_decide; simpl.
    + by rewrite decide_True.
    + by rewrite decide_False.
Qed.

Lemma dict_get_set_ne (k k' : string) (v : value) (kvs : list (string * value)) :
  k <> k' -> dict_get k' (search_base.dict_set k v kvs) = dict_get k' kvs.
Proof.
  intros Hne. induction kvs as [|[k0 v0] kvs IH]; simpl.
  - by rewrite decide_False.
  - case_decide as Hk; simpl.
    + subst k0. by rewrite !decide_False.
    + by rewrite IH.
Qed.

Lemma dict_get_not_key (k : string) (kvs : list (string * value)) :
  k ∉ keys kvs -> dict_get k kvs = None.
Proof.
  induction kvs as [|[k' v'] kvs IH]; simpl; [done|].
  intros Hk. apply not_elem_of_cons in Hk as [Hne Hk].
  rewrite decide_False by done. by apply IH.
Qed.

Lemma dict_get_pop_eq (k : string) (kvs : list (string * value)) :
  NoDup (keys kvs) -> dict_get k (search_base.dict_pop k kvs) = None.
Proof.
  induction kvs as [|[k' v'] kvs IH]; simpl; [done|].
  intros Hnd. apply NoDup_cons in Hnd as [Hk' Hnd].
  case_decide as Hk; simpl.
  - subst k'. by apply dict_get_not_key.
  - rewrite decide_False by done. by apply IH.
Qed.

Lemma dict_get_pop_ne (k k' : string) (kvs : list (string * value)) :
  k <> k' -> dict_get k' (search_base.dict_pop k kvs) = dict_get k' kvs.
Proof.
  intros Hne. induction kvs as [|[k0 v0] kvs IH]; simpl; [done|].
  case_decide as Hk; simpl.
  - subst k0. by rewrite decide_False.
  - by rewrite IH.
Qed.

Lemma keys_pop_sublist (k : string) (kvs : list (string * value)) :
  sublist (keys (search_base.dict_pop k kvs)) (keys kvs).
Proof.
  induction kvs as [|[k' v'] kvs IH]; simpl; [done|].
  case_decide; simpl.
  - by apply sublist_cons.
  - by apply sublist_skip.
Qed.

Lemma NoDup_keys_pop (k : string) (kvs : list (string * value)) :
  NoDup (keys kvs) -> NoDup (keys (search_base.dict_pop k kvs)).
Proof. intros Hnd. eapply sublist_NoDup; [done|apply keys_pop_sublist]. Qed.

(** X18. After the configuration arguments are popped, none of the five is
    left among the keyword arguments and every other argument is bound as it
    was. *)
Theorem reduce_kwargs_pops_the_configuration (kwargs : list (string * value)) (k : string) :
  NoDup (keys kwargs) ->
  dict_get k (search_base.reduce_kwargs kwargs)
  = if bool_decide (k ∈ search_base.config_keys) then None else dict_get k kwargs.
Proof.
  intros Hnd. unfold search_base.reduce_kwargs, search_base.config_keys.
  pose proof (NoDup_keys_pop "index" _ Hnd) as H1.
  pose proof (NoDup_keys_pop "count" _ H1) as H2.
  pose proof (NoDup_keys_pop "highlight" _ H2) as H3.
  pose proof (NoDup_keys_pop "return_stored_source" _ H3) as H4.
  case_bool_decide as Hk.
  - destruct (decide (k = "score_details")) as [->|N5]; [by apply dict_get_pop_eq|].
    rewrite dict_get_pop_ne by done.
    destruct (decide (k = "return_stored_source")) as [->|N4]; [by apply dict_get_pop_eq|].
    rewrite dict_get_pop_ne by done.
    destruct (decide (k = "highlight")) as [->|N3]; [by apply dict_get_pop_eq|].
    rewrite dict_get_pop_ne by done.
    destruct (decide (k = "count")) as [->|N2]; [by apply dict_get_pop_eq|].
    rewrite dict_get_pop_ne by done.
    destruct (decide (k = "index")) as [->|N1]; [by apply dict_get_pop_eq|].
    repeat (apply elem_of_cons in Hk as [->|Hk]; [done|]).
    by apply elem_of_nil in Hk.
  - rewrite !dict_get_pop_ne; [done|intros <-; apply Hk; compute_done..].
Qed.

Lemma reduce_kwargs_pops_the_configuration_witness :
  dict_get "index"
    (search_base.reduce_kwargs [("index", VStr "fr"); ("synonyms", VStr "syn")])
  = (if bool_decide ("index" ∈ search_base.config_keys) then None
     else dict_get "index" [("index", VStr "fr"); ("synonyms", VStr "syn")]).
Proof.
  apply (reduce_kwargs_pops_the_configuration
           [("index", VStr "fr"); ("synonyms", VStr "syn")] "index").
  unfold keys; simpl. compute_done.
Defined.

(** A declared operator name selects a constructor. *)
Lemma every_name_selects (operator_name : string) :
  operator_name ∈ search_base.OperatorLiteral ->
  is_Some (search_base.get_constructors_map operator_name).
Proof.
  unfold search_base.OperatorLiteral. intros Hin.
  repeat (apply elem_of_cons in Hin as [->|Hin]; [by eexists|]).
  by apply elem_of_nil in Hin.
Qed.

(** X19. The constructors are keyed by exactly the operator names that
    [from_operator] declares: a declared name always selects a constructor,
    any other name is a missing key. *)
Theorem every_operator_name_has_a_constructor (operator_name : string) :
  is_Some (search_base.get_constructors_map operator_name)
  <-> operator_name ∈ search_base.OperatorLiteral.
Proof.
  unfold search_base.get_constructors_map, search_base._constructors_map,
    search_base.OperatorLiteral.
  split.
  - intros [c Hc]. apply fmap_Some in Hc as ([k c'] & Hfind & _).
    apply find_some in Hfind as [Hin Hk]. apply bool_decide_eq_true in Hk.
    simpl in Hk. subst k. simpl in Hin.
    repeat (destruct Hin as [[= <- _]|Hin]; [compute_done|]). done.
  - apply every_name_selects.
Qed.

(** X20. For every declared operator name, [from_operator] passes the
    constructor it selects all four named parameters under their names
    (those the caller left out as well, with their default), and every other
    keyword argument as given. *)
Theorem from_operator_overrides_named_parameters
    (operator_name : string) (path query fuzzy score : value)
    (kwargs : list (string * value)) :
  operator_name ∈ search_base.OperatorLiteral ->
  exists (init_ : search_base.constructor) (passed : list (string * value)),
    search_base.from_operator operator_name path query fuzzy score kwargs
    = Some (init_, passed)
    /\ search_base.get_constructors_map operator_name = Some init_
    /\ dict_get "path" passed = Some path
    /\ dict_get "query" passed = Some query
    /\ dict_get "fuzzy" passed = Some fuzzy
    /\ dict_get "score" passed = Some score
    /\ (forall k : string, k ∉ ["path"; "query"; "fuzzy"; "score"] ->
          dict_get k passed = dict_get k kwargs).
Proof.
  intros Hin. apply every_name_selects in Hin as [init_ Hinit].
  unfold search_base.from_operator. rewrite Hinit.
  eexists _, _. split; [reflexivity|]. split; [done|].
  unfold search_base.dict_update. cbn [fold_left fst snd].
  split; [by rewrite !dict_get_set_ne, dict_get_set_eq by done|].
  split; [by rewrite !dict_get_set_ne, dict_get_set_eq by done|].
  split; [by rewrite !dict_get_set_ne, dict_get_set_eq by done|].
  split; [by rewrite dict_get_set_eq|].
  intros k Hk. rewrite !dict_get_set_ne; [done|intros <-; apply Hk; compute_done..].
Qed.

Lemma from_operator_overrides_named_parameters_witness :
  exists (init_ : search_base.constructor) (passed : list (string * value)),
    search_base.from_operator "text" (VStr "title") (VStr "surf") VNone VNone
      [("index", VStr "fr"); ("synonyms", VStr "syn")]
    = Some (init_, passed)
    /\ search_base.get_constructors_map "text" = Some init_
    /\ dict_get "path" passed = Some (VStr "title")
    /\ dict_get "query" passed = Some (VStr "surf")
    /\ dict_get "fuzzy" passed = Some VNone
    /\ dict_get "score" passed = Some VNone
    /\ (forall k : string, k ∉ ["path"; "query"; "fuzzy"; "score"] ->
          dict_get k passed = dict_get k [("index", VStr "fr"); ("synonyms", VStr "syn")]).
Proof.
  apply (from_operator_overrides_named_parameters "text" (VStr "title") (VStr "surf")
           VNone VNone [("index", VStr "fr"); ("synonyms", VStr "syn")]).
  unfold search_base.OperatorLiteral. compute_done.
Defined.

(** *** Construction and helpers together *)

Section SearchStageFacts.

Variable format_operator : gmap loc search_base.object -> option loc -> string.

Implicit Types (h : gmap loc search_base.object) (self op : loc)
  (s : search_base.SearchBase) (c : compound.Compound) (type : compound.ClauseType).

(** X13. On a stage whose operator is not a compound, each of the eight
    helpers raises the type error that carries its own name and the
    rendering of the operator, and leaves the store as it was. *)
Theorem every_helper_refused_off_compound self s type h :
  h !! self = Some (search_base.OSearch s) ->
  search_base.as_Compound h (search_base.operator s) = None ->
  let refused (prefix : string) : result loc * gmap loc search_base.object :=
    (Raise (TypeError (prefix +:+ format_operator h (search_base.operator s))), h) in
  (forall query path token_order fuzzy score,
     search_base.autocomplete format_operator self type query path token_order fuzzy score h
     = refused "Cannot call autocomplete on ")
  /\ (forall path value_ score,
        search_base.equals format_operator self type path value_ score h
        = refused "Cannot call equals on ")
  /\ (forall path,
        search_base.exists_ format_operator self type path h
        = refused "Cannot call exists on ")
  /\ (forall path gt lt gte lte score,
        search_base.range format_operator self type path gt lt gte lte score h
        = refused "Cannot call range on ")
  /\ (forall query path allow_analyzed_field score,
        search_base.regex format_operator self type query path allow_analyzed_field score h
        = refused "Cannot call regex on ")
  /\ (forall query path fuzzy score synonyms,
        search_base.text format_operator self type query path fuzzy score synonyms h
        = refused "Cannot call text on ")
  /\ (forall query path allow_analyzed_field score,
        search_base.wildcard format_operator self type query path allow_analyzed_field score h
        = refused "Cannot call wildcard on ")
  /\ (forall nesting must_ must_not_ should_ filter_ n,
        search_base.compound format_operator nesting self type
          must_ must_not_ should_ filter_ n h
        = refused "Cannot call compound on ").
Proof.
  intros Hself Hop refused.
  assert (forall helper (delegate : loc -> search_base.method loc),
    search_base.returning self
      (search_base.guarded format_operator helper self delegate) h
    = (Raise (TypeError ("Cannot call " +:+ helper +:+ " on "
                         +:+ format_operator h (search_base.operator s))), h)) as Hclause.
  { intros helper delegate. unfold search_base.returning.
    by rewrite (guarded_other format_operator helper self s delegate h Hself Hop). }
  repeat (split; [intros; apply Hclause|]).
  intros. unfold search_base.compound.
  by rewrite (guarded_other format_operator _ self s _ h Hself Hop).
Qed.

Variable coerce : pydantic.annotation -> value -> option value.

(** X14. A stage built without naming a collector or an operator (and
    otherwise well typed) accepts a clause helper at once: [equals] on it is
    not refused, it returns the stage, and the stage is as it was built. *)
Theorem default_stage_accepts_clauses (values : search_base.kwargs) h type
    (path value_ score : value) :
  search_base.collector_arg values = search_base.Absent ->
  search_base.operator_arg values = search_base.Absent ->
  search_base.well_typed values = true ->
  exists (stage : loc) s (h1 h2 : gmap loc search_base.object),
    search_base.SearchBase_new coerce values h = (Ok stage, h1)
    /\ h1 !! stage = Some (search_base.OSearch s)
    /\ search_base.equals format_operator stage type path value_ score h1 = (Ok stage, h2)
    /\ h2 !! stage = Some (search_base.OSearch s).
Proof.
  intros Hcol Hop Htyped.
  destruct (SearchBase_new_neither coerce values h Hcol Hop Htyped) as (s & Hnew & _ & Hs).
  cbv zeta in Hnew.
  set (op := fresh (dom h)) in *.
  set (empty := compound.mkCompound [] [] [] [] (search_base.default_count values)) in *.
  set (h0 := <[op := search_base.OCompound empty]> h) in *.
  set (stage := fresh (dom h0)) in *.
  set (h1 := <[stage := search_base.OSearch s]> h0) in *.
  assert (h0 !! op = Some (search_base.OCompound empty)) as Hop0 by apply lookup_insert_eq.
  assert (stage <> op) as Hne.
  { intros Heq. pose proof (lookup_fresh_None h0) as Hnone. fold stage in Hnone.
    rewrite Heq in Hnone. congruence. }
  assert (h1 !! stage = Some (search_base.OSearch s)) as Hstage by apply lookup_insert_eq.
  assert (h1 !! op = Some (search_base.OCompound empty)) as Hop1.
  { unfold h1. by rewrite lookup_insert_ne. }
  assert (search_base.as_Compound h1 (search_base.operator s) = Some op) as Has.
  { unfold search_base.as_Compound. by rewrite Hs, Hop1. }
  pose proof (lookup_fresh_None h1) as Hleaf.
  exists stage, s, h1. eexists.
  split; [exact Hnew|]. split; [done|].
  split.
  { unfold search_base.equals.
    exact (clause_on_compound format_operator "equals" stage s type _ h1 op empty
             Hstage Has Hop1). }
  by apply stage_kept with (c := empty).
Qed.

(** What construction leaves when one of the two is named: the stage, with
    what was passed. *)
Lemma SearchBase_new_collector (values : search_base.kwargs) (col : loc)
    (fields : list (string * value)) h :
  search_base.collector_arg values = search_base.Passed col ->
  search_base.operator_arg values = search_base.Absent ->
  search_base.well_typed values = true ->
  h !! col = Some (search_base.OFacet fields) ->
  exists s,
    search_base.SearchBase_new coerce values h
    = (Ok (fresh (dom h)), <[fresh (dom h) := search_base.OSearch s]> h)
    /\ search_base.collector s = Some col
    /\ search_base.operator s = None.
Proof.
  intros Hcol Hop Htyped Hfacet.
  destruct (validate_config_well_typed coerce values Htyped) as [cfg Hcfg].
  unfold search_base.SearchBase_new, search_base.init.
  rewrite Hcol, Hop. cbn [search_base.not_in andb]. rewrite Hcol, Hop, Hcfg.
  cbn [search_base.validate_collector]. rewrite Hfacet.
  cbn [mjoin option_join search_base.get].
  eexists. split; [reflexivity|]. done.
Qed.


(** X15. A stage built on a facet collector alone (and otherwise well
    typed) is built with no operator, so it takes no clause: [equals] and
    [compound] on it raise the type error, rendering the operator [None],
    and leave the store as it was. *)
Theorem collector_stage_takes_no_clause (values : search_base.kwargs) (col : loc)
    (fields : list (string * value)) h type (path value_ score : value) :
  search_base.collector_arg values = search_base.Passed col ->
  search_base.operator_arg values = search_base.Absent ->
  search_base.well_typed values = true ->
  h !! col = Some (search_base.OFacet fields) ->
  exists (stage : loc) s (h1 : gmap loc search_base.object),
    search_base.SearchBase_new coerce values h = (Ok stage, h1)
    /\ h1 !! stage = Some (search_base.OSearch s)
    /\ search_base.collector s = Some col
    /\ search_base.operator s = None
    /\ search_base.equals format_operator stage type path value_ score h1
       = (Raise (TypeError ("Cannot call equals on " +:+ format_operator h1 None)), h1)
    /\ (forall nesting,
          search_base.compound format_operator nesting stage type [] [] [] [] 0 h1
          = (Raise (TypeError ("Cannot call compound on " +:+ format_operator h1 None)), h1)).
Proof.
  intros Hcol Hop Htyped Hfacet.
  destruct (SearchBase_new_collector values col fields h Hcol Hop Htyped Hfacet)
    as (s & Hnew & Hc & Ho).
  set (h1 := <[fresh (dom h) := search_base.OSearch s]> h) in *.
  assert (h1 !! fresh (dom h) = Some (search_base.OSearch s)) as Hstage
    by apply lookup_insert_eq.
  assert (search_base.as_Compound h1 (search_base.operator s) = None) as Has
    by (by rewrite Ho).
  exists (fresh (dom h)), s, h1. split; [done|].
  split; [done|]. split; [done|]. split; [done|].
  split.
  - unfold search_base.equals, search_base.returning.
    rewrite (guarded_other format_operator _ _ s _ h1 Hstage Has). by rewrite Ho.
  - intros nesting. unfold search_base.compound.
    rewrite (guarded_other format_operator _ _ s _ h1 Hstage Has). by rewrite Ho.
Qed.


End SearchStageFacts.

(** On the store whose stage holds a text operator, [wildcard] is refused
    under its own name. *)
Lemma every_helper_refused_off_compound_witness :
  search_base.wildcard (fun _ _ => "text") 1%positive compound.Filter
    (VStr "sur*") (VStr "title") (VBool false) VNone search_base.text_store
  = (Raise (TypeError "Cannot call wildcard on text"), search_base.text_store).
Proof.
  pose proof (every_helper_refused_off_compound (fun _ _ => "text") 1%positive
                search_base.example_stage compound.Filter search_base.text_store
                eq_refl eq_refl) as Hall.
  cbv zeta in Hall.
  exact (proj1 (proj2 (proj2 (proj2 (proj2 (proj2 (proj2 Hall))))))
           (VStr "sur*") (VStr "title") (VBool false) VNone).
Defined.

(** A stage built with a count of two and nothing else, on the store of
    the examples. *)
Lemma default_stage_accepts_clauses_witness :
  exists (stage : loc) (s : search_base.SearchBase) (h1 h2 : gmap loc search_base.object),
    search_base.SearchBase_new (fun _ _ => None)
      (search_base.mkKwargs None None None None None search_base.Absent
         search_base.Absent (Some (VInt 2)) None)
      search_base.text_store
    = (Ok stage, h1)
    /\ h1 !! stage = Some (search_base.OSearch s)
    /\ search_base.equals (fun _ _ => "") stage compound.Must
         (VStr "ok") (VBool true) VNone h1
       = (Ok stage, h2)
    /\ h2 !! stage = Some (search_base.OSearch s).
Proof.
  exact (default_stage_accepts_clauses (fun _ _ => "") (fun _ _ => None)
           (search_base.mkKwargs None None None None None search_base.Absent
              search_base.Absent (Some (VInt 2)) None)
           search_base.text_store compound.Must (VStr "ok") (VBool true) VNone
           eq_refl eq_refl eq_refl).
Defined.

(** A stage built on the facet of the example store. *)
Lemma collector_stage_takes_no_clause_witness :
  exists (stage : loc) (s : search_base.SearchBase) (h1 : gmap loc search_base.object),
    search_base.SearchBase_new (fun _ _ => None)
      (search_base.mkKwargs (Some (VStr "fr")) None None None None
         (search_base.Passed 1%positive) search_base.Absent None None)
      search_base.facet_store
    = (Ok stage, h1)
    /\ h1 !! stage = Some (search_base.OSearch s)
    /\ search_base.collector s = Some 1%positive
    /\ search_base.operator s = None
    /\ search_base.equals (fun _ _ => "None") stage compound.Must
         (VStr "ok") (VBool true) VNone h1
       = (Raise (TypeError ("Cannot call equals on " +:+ "None")), h1)
    /\ (forall nesting,
          search_base.compound (fun _ _ => "None") nesting stage compound.Must
            [] [] [] [] 0 h1
          = (Raise (TypeError ("Cannot call compound on " +:+ "None")), h1)).
Proof.
  exact (collector_stage_takes_no_clause (fun _ _ => "None") (fun _ _ => None)
           (search_base.mkKwargs (Some (VStr "fr")) None None None None
              (search_base.Passed 1%positive) search_base.Absent None None)
           1%positive [("path", VStr "genres")] search_base.facet_store
           compound.Must (VStr "ok") (VBool true) VNone
           eq_refl eq_refl eq_refl eq_refl).
Defined.

